(** * Optional-package installer (scripts/base.py): model and properties

    A shallow embedding of [DebianSetup] from [src/scripts/base.py]:
    the Python builtins the script relies on, its interaction with the
    outside world (sub-processes, the terminal, the file system, the
    logger) as explicit state passing over an event history, and the
    properties of the selection parser, of [run_command] and of the
    top-level run.

    Strings are sequences of code points below 256, on which the builtins
    below agree with Python's [str] methods. *)

From Stdlib Require Import ZArith Lia List Ascii String Bool DecimalString.
From stdpp Require Import base decidable list gmap strings.
Import ListNotations.

Local Open Scope string_scope.
Local Open Scope list_scope.
Local Open Scope Z_scope.

(** ** Python string builtins *)

Module Py.

Definition chr (n : nat) : ascii := ascii_of_nat n.
Definition str1 (c : ascii) : string := String c EmptyString.

(** The double quote, the line feed and the escape character. *)
Definition dq : string := str1 (chr 34).
Definition nl_char : ascii := chr 10.
Definition nl : string := str1 nl_char.
Definition esc : string := str1 (chr 27).

(** [str.isspace] on one character: TAB LF VT FF CR, FS GS RS US, SPACE,
    NEL and NBSP. *)
Definition isspace (c : ascii) : bool :=
  let n := nat_of_ascii c in
  ((9 <=? n) && (n <=? 13))%nat || ((28 <=? n) && (n <=? 32))%nat
  || (n =? 133)%nat || (n =? 160)%nat.

Definition isdigit (c : ascii) : bool :=
  let n := nat_of_ascii c in ((48 <=? n) && (n <=? 57))%nat.

Definition digit_value (c : ascii) : Z := Z.of_nat (nat_of_ascii c) - 48.

(** [str.lower] on one character. *)
Definition lower_char (c : ascii) : ascii :=
  let n := nat_of_ascii c in
  if ((65 <=? n) && (n <=? 90))%nat
     || ((192 <=? n) && (n <=? 222) && negb (n =? 215))%nat
  then ascii_of_nat (n + 32) else c.

Fixpoint lower (s : string) : string :=
  match s with
  | EmptyString => EmptyString
  | String c r => String (lower_char c) (lower r)
  end.

Fixpoint lstrip (s : string) : string :=
  match s with
  | EmptyString => EmptyString
  | String c r => if isspace c then lstrip r else s
  end.

Fixpoint rstrip (s : string) : string :=
  match s with
  | EmptyString => EmptyString
  | String c r =>
      match rstrip r with
      | EmptyString => if isspace c then EmptyString else str1 c
      | r' => String c r'
      end
  end.

(** [s.strip()] *)
Definition strip (s : string) : string := rstrip (lstrip s).

(** [s.split(sep)] for a one-character separator: never the empty list. *)
Fixpoint split_on (sep : ascii) (s : string) : list string :=
  match s with
  | EmptyString => [EmptyString]
  | String c r =>
      if Ascii.eqb c sep then EmptyString :: split_on sep r
      else match split_on sep r with
           | t :: ts => String c t :: ts
           | [] => [str1 c]
           end
  end.

(** [s.split()]: the maximal runs of non-whitespace characters. *)
Fixpoint split (s : string) : list string :=
  match s with
  | EmptyString => []
  | String c r =>
      if isspace c then split r
      else match r with
           | EmptyString => [str1 c]
           | String c' _ =>
               if isspace c' then str1 c :: split r
               else match split r with
                    | t :: ts => String c t :: ts
                    | [] => [str1 c]
                    end
           end
  end.

(** A word: not empty and free of whitespace. *)
Fixpoint no_space (s : string) : bool :=
  match s with
  | EmptyString => true
  | String c r => negb (isspace c) && no_space r
  end.

Definition is_word (s : string) : bool :=
  match s with EmptyString => false | _ => no_space s end.

(** [s] without its whitespace. *)
Fixpoint remove_spaces (s : string) : string :=
  match s with
  | EmptyString => EmptyString
  | String c r => if isspace c then remove_spaces r else String c (remove_spaces r)
  end.

(** [sep.join(l)] *)
Fixpoint join (sep : string) (l : list string) : string :=
  match l with
  | [] => EmptyString
  | [x] => x
  | x :: r => x +:+ sep +:+ join sep r
  end.

(** [s.startswith(p)] *)
Definition startswith (s p : string) : bool := String.prefix p s.

(** [needle in s] *)
Fixpoint contains (needle s : string) : bool :=
  String.prefix needle s ||
  match s with
  | EmptyString => false
  | String _ r => contains needle r
  end.

(** [str(n)] for an integer. *)
Definition str_int (n : Z) : string := NilZero.string_of_int (Z.to_int n).

(** [str(b)] for a boolean. *)
Definition str_bool (b : bool) : string := if b then "True" else "False".

(** [s[:n]] *)
Definition take (n : nat) (s : string) : string := String.substring 0 n s.

(** [c * n] for a one-character string. *)
Fixpoint repeat_char (c : ascii) (n : nat) : string :=
  match n with O => EmptyString | S k => String c (repeat_char c k) end.

(** [int(s)] in base 10. [None] stands for [ValueError]. After the
    surrounding whitespace and an optional sign come decimal digits, any
    two of which may be separated by one underscore. [scan_digits] returns
    the digits read; [prev_digit] records that the previous character was
    a digit. *)
Fixpoint scan_digits (s : string) (prev_digit : bool) : option (list Z) :=
  match s with
  | EmptyString => if prev_digit then Some [] else None
  | String c r =>
      if isdigit c then
        match scan_digits r true with
        | Some ds => Some (digit_value c :: ds)
        | None => None
        end
      else if Ascii.eqb c (chr 95) then
        if prev_digit then scan_digits r false else None
      else None
  end.

Definition digits_value (ds : list Z) : Z :=
  fold_left (fun acc d => 10 * acc + d) ds 0.

(** [max_str_digits] is the interpreter's limit on the number of digits
    of a converted string ([sys.get_int_max_str_digits()], 4300 by default
    and 0 when the limit is off or the interpreter has none); it applies
    above 640 digits only. *)
Definition int_unsigned (max_str_digits : nat) (s : string) : option Z :=
  match scan_digits s false with
  | Some ds =>
      let digits := length ds in
      if ((640 <? digits) && (0 <? max_str_digits)
          && (max_str_digits <? digits))%nat
      then None else Some (digits_value ds)
  | None => None
  end.

Definition int (max_str_digits : nat) (s : string) : option Z :=
  match strip s with
  | String c r =>
      if Ascii.eqb c (chr 43) then int_unsigned max_str_digits r
      else if Ascii.eqb c (chr 45)
      then option_map Z.opp (int_unsigned max_str_digits r)
      else int_unsigned max_str_digits (String c r)
  | EmptyString => None
  end.

(** [list.sort()] on strings: insertion sort by code points. *)
Fixpoint insert_sorted (x : string) (l : list string) : list string :=
  match l with
  | [] => [x]
  | y :: r => if String.leb x y then x :: l else y :: insert_sorted x r
  end.

Definition sort (l : list string) : list string :=
  fold_right insert_sorted [] l.

(** [enumerate(l, start)] *)
Fixpoint enumerate {A : Type} (l : list A) (start : Z) : list (Z * A) :=
  match l with
  | [] => []
  | x :: r => (start, x) :: enumerate r (start + 1)
  end.

End Py.

Declare Scope py_scope.
Delimit Scope py_scope with py.
Local Open Scope py_scope.

(** ** The outside world *)

(** Logging levels used by the script. *)
Inductive level := DEBUG | INFO | ERROR.

(** A log message is its text; the fields the model has no account of
    (a clock reading, an elapsed time, Python's [repr] of a list) are kept
    as holes. *)
Inductive piece :=
| Lit (s : string)
| Clock
| Elapsed
| Repr (l : list string).

Coercion Lit : string >-> piece.

Definition message := list piece.

(** An f-string, piece by piece. *)
Notation "'fmt[' x ; .. ; y ']'" :=
  (@cons piece x .. (@cons piece y (@nil piece)) ..) : py_scope.

(** [command: Union[str, List[str]]] *)
Inductive Command :=
| CmdStr (s : string)
| CmdList (argv : list string).

(** What a [raise] carries. [Exc name msg] is an instance of [Exception]
    with type name [name] and [str(e) = msg]; [KeyboardInterrupt] and
    [SystemExit] derive from [BaseException] only. *)
Inductive raised :=
| Exc (name msg : string)
| KeyboardInterrupt
| SystemExit (code : Z).

Definition is_Exception (e : raised) : bool :=
  match e with Exc _ _ => true | _ => false end.

Definition is_ValueError (e : raised) : bool :=
  match e with Exc name _ => String.eqb name "ValueError" | _ => false end.

(** What [subprocess.Popen(...)] followed by [communicate()] comes to. *)
Inductive popen_outcome :=
| Completed (returncode : Z) (stdout stderr : string)
| PopenRaised (e : raised).

(** What the terminal holds for one [input()] call: a line, or an
    interrupt from the keyboard. An exhausted input is end of file. *)
Inductive stdin_item :=
| Line (s : string)
| CtrlC.

(** The observable steps of a run, in the order they happen. *)
Inductive event :=
| Logged (lvl : level) (msg : message)
| Popen (cmd : Command) (shell : bool) (o : popen_outcome)
| PathChecked (path : string) (b : bool)
| Wrote (path data : string) (r : option raised)
| Printed (line : string)
| Prompted (prompt : string) (r : option stdin_item).

(** The environment answers each request from the history so far, which
    leaves it free to answer the same request differently over time.
    It also holds two facts of the interpreter. The interpreter bounds
    the depth of nested calls ([sys.getrecursionlimit()], 1000 unless
    changed): [recursion_room] is the number of nested activations of
    [display_package_menu] for which this leaves room, a little under the
    limit, and [recursion_message] is the text of the [RecursionError] the
    interpreter raises when no room is left. *)
Record Env := {
  int_max_str_digits : nat;
  recursion_room : nat;
  recursion_message : string;
  popen : list event -> Command -> bool -> popen_outcome;
  os_path_exists : list event -> string -> bool;
  open_write : list event -> string -> string -> option raised;
}.

(** The state of a run: the history, the pending terminal input and the
    two attributes of [self]. [docker_available] is created by
    [install_packages]; it reads [false] before. *)
Record State := {
  history : list event;
  stdin : list stdin_item;
  error_flag : bool;
  docker_available : bool;
}.

Definition emit (ev : event) (st : State) : State :=
  {| history := history st ++ [ev]; stdin := stdin st;
     error_flag := error_flag st;
     docker_available := docker_available st |}.

Definition emits (evs : list event) (st : State) : State :=
  {| history := history st ++ evs; stdin := stdin st;
     error_flag := error_flag st;
     docker_available := docker_available st |}.

Definition with_stdin (l : list stdin_item) (st : State) : State :=
  {| history := history st; stdin := l;
     error_flag := error_flag st;
     docker_available := docker_available st |}.

Definition set_error_flag (b : bool) (st : State) : State :=
  {| history := history st; stdin := stdin st;
     error_flag := b; docker_available := docker_available st |}.

Definition set_docker_available (b : bool) (st : State) : State :=
  {| history := history st; stdin := stdin st;
     error_flag := error_flag st; docker_available := b |}.

(** ** Computations that may raise *)

Inductive result (A : Type) :=
| Ret (a : A)
| Raise (e : raised).

Arguments Ret {A} a.
Arguments Raise {A} e.

Definition M (A : Type) : Type := State -> result A * State.

Definition ret {A} (a : A) : M A := fun st => (Ret a, st).

Definition bind {A B} (m : M A) (k : A -> M B) : M B :=
  fun st =>
    match m st with
    | (Ret a, st') => k a st'
    | (Raise e, st') => (Raise e, st')
    end.

Definition raise {A} (e : raised) : M A := fun st => (Raise e, st).

(** [try: body except Exception as e: handler e] *)
Definition try_except_Exception {A} (body : M A) (handler : string -> string -> M A)
  : M A :=
  fun st =>
    match body st with
    | (Raise (Exc name msg), st') => handler name msg st'
    | r => r
    end.

Notation "x <- c1 ;; c2" := (bind c1 (fun x => c2))
  (at level 100, c1 at next level, right associativity) : py_scope.
Notation "c1 ;; c2" := (bind c1 (fun _ => c2))
  (at level 100, right associativity) : py_scope.

Local Open Scope py_scope.

Definition log (lvl : level) (msg : message) : M unit :=
  fun st => (Ret tt, emit (Logged lvl msg) st).

Definition when (b : bool) (m : M unit) : M unit :=
  if b then m else ret tt.

(** ** The script *)

Definition LOG_FILE : string := "optional-packages.log".

Definition colored (code : string) (text : string) : string :=
  Py.esc +:+ "[1;" +:+ code +:+ "m" +:+ text +:+ Py.esc +:+ "[0m".

Definition blue := colored "34".
Definition green := colored "32".
Definition red := colored "31".

(** A dictionary with string keys, in insertion order. Assigning to a
    key that is present keeps its place. *)
Definition dict := list (string * bool).

Fixpoint dict_set (d : dict) (k : string) (v : bool) : dict :=
  match d with
  | [] => [(k, v)]
  | (k', v') :: r =>
      if String.eqb k' k then (k', v) :: r else (k', v') :: dict_set r k v
  end.

Definition keys (d : dict) : list string := map fst d.

(** [[pkg for pkg, selected in d.items() if selected]] *)
Definition selected_keys (d : dict) : list string :=
  map fst (filter (fun kv => snd kv = true) d).

(** [for x in l: body x] *)
Fixpoint for_each {A : Type} (l : list A) (body : A -> M unit) : M unit :=
  match l with
  | [] => ret tt
  | x :: r => body x ;; for_each r body
  end.

Definition nonempty (s : string) : bool :=
  match s with EmptyString => false | _ => true end.

(** [(s[:500] + '... [truncated]') if len(s) > 500 else s] *)
Definition truncated (s : string) : string :=
  if (500 <? String.length s)%nat
  then Py.take 500 s +:+ "... [truncated]" else s.

Definition cmd_str_of (command : Command) : string :=
  match command with
  | CmdStr s => s
  | CmdList l => Py.join " " l
  end.

(** The command as [subprocess.Popen] receives it. *)
Definition popen_argument (command : Command) (shell : bool) : Command :=
  match command with
  | CmdStr s => if negb shell then CmdList (Py.split s) else command
  | CmdList _ => command
  end.

Section Script.

Variable env : Env.

(** [subprocess.Popen(command, ..., shell=shell)] and [communicate()]. *)
Definition spawn (command : Command) (shell : bool) : M (Z * string * string) :=
  fun st =>
    let o := popen env (history st) command shell in
    (match o with
     | Completed returncode stdout stderr => Ret (returncode, stdout, stderr)
     | PopenRaised e => Raise e
     end, emit (Popen command shell o) st).

Definition path_exists (path : string) : M bool :=
  fun st =>
    let b := os_path_exists env (history st) path in
    (Ret b, emit (PathChecked path b) st).

(** [with open(path, "w") as f: f.write(data)] *)
Definition write_file (path data : string) : M unit :=
  fun st =>
    let r := open_write env (history st) path data in
    (match r with None => Ret tt | Some e => Raise e end,
     emit (Wrote path data r) st).

Definition run_command (command : Command) (shell check : bool)
  : M (Z * string * string) :=
  let cmd_str := cmd_str_of command in
  log DEBUG fmt["Executing command: '"; cmd_str; "', shell="; Py.str_bool shell;
             ", check="; Py.str_bool check] ;;
  command <- match command with
             | CmdStr s =>
                 if negb shell then
                   let command := Py.split s in
                   log DEBUG fmt["Split command into: "; Repr command] ;;
                   ret (CmdList command)
                 else ret command
             | CmdList _ => ret command
             end ;;
  try_except_Exception
    (log DEBUG fmt["Command execution started at "; Clock] ;;
     r <- spawn command shell ;;
     let '(returncode, stdout, stderr) := r in
     log DEBUG fmt["Command execution completed in "; Elapsed;
                " seconds with return code "; Py.str_int returncode] ;;
     when (nonempty stdout) (log DEBUG fmt["Command stdout: "; truncated stdout]) ;;
     when (nonempty stderr) (log DEBUG fmt["Command stderr: "; truncated stderr]) ;;
     when (check && negb (returncode =? 0))
       (log ERROR fmt["Command failed: "; cmd_str] ;;
        log ERROR fmt["Error: "; Py.strip stderr] ;;
        log DEBUG fmt["Failed command details - return code: ";
                   Py.str_int returncode; ", execution time: "; Elapsed; "s"]) ;;
     ret (returncode, Py.strip stdout, Py.strip stderr))
    (fun name msg =>
       log ERROR fmt["Exception running command "; cmd_str; ": "; msg] ;;
       log DEBUG fmt["Command exception details: "; name; ", "; msg] ;;
       log DEBUG fmt["Exception traceback:"] ;;
       ret (1, EmptyString, msg)).

Definition is_installed (package : string) : M bool :=
  r <- run_command (CmdStr ("dpkg -l " +:+ package)) true false ;;
  let '(returncode, stdout, _) := r in
  ret ((returncode =? 0)
       && existsb (fun line => Py.startswith (Py.strip line) "ii")
                  (Py.split_on Py.nl_char stdout)).

Definition setup_docker_repository : M unit :=
  log INFO fmt["Setting up Docker repository..."] ;;
  _ <- run_command (CmdStr "install -m 0755 -d /etc/apt/keyrings") true true ;;
  present <- path_exists "/etc/apt/keyrings/docker.gpg" ;;
  when (negb present)
    (log INFO fmt["Adding Docker's official GPG key..."] ;;
     let curl_cmd := "curl -fsSL https://download.docker.com/linux/debian/gpg" in
     let gpg_cmd := "gpg --dearmor -o /etc/apt/keyrings/docker.gpg" in
     _ <- run_command (CmdStr (curl_cmd +:+ " | " +:+ gpg_cmd)) true true ;;
     _ <- run_command (CmdStr "chmod a+r /etc/apt/keyrings/docker.gpg") true true ;;
     ret tt) ;;
  log INFO fmt["Adding Docker repository to apt sources..."] ;;
  let codename_cmd :=
    ". /etc/os-release && echo " +:+ Py.dq +:+ "$VERSION_CODENAME" +:+ Py.dq in
  r <- run_command (CmdStr codename_cmd) true true ;;
  let '(_, codename, _) := r in
  let arch_cmd := "dpkg --print-architecture" in
  r <- run_command (CmdStr arch_cmd) true true ;;
  let '(_, arch, _) := r in
  let docker_repo :=
    "deb [arch=" +:+ arch +:+ " signed-by=/etc/apt/keyrings/docker.gpg] "
    +:+ "https://download.docker.com/linux/debian " +:+ codename +:+ " stable" in
  write_file "/etc/apt/sources.list.d/docker.list" (docker_repo +:+ Py.nl) ;;
  _ <- run_command (CmdStr "apt update") true true ;;
  ret tt.

(** The [try] block of [display_package_menu]: the tokens are converted
    in turn, an index within bounds joins the set, and the first token
    that [int] rejects raises [ValueError] ([None]). *)
Fixpoint collect_indices (packages : list string) (tokens : list string)
    (selected_indices : gset Z) : option (gset Z) :=
  match tokens with
  | [] => Some selected_indices
  | num :: rest =>
      match Py.int (int_max_str_digits env) (Py.strip num) with
      | None => None
      | Some n =>
          let idx := n - 1 in
          collect_indices packages rest
            (if (0 <=? idx) && (idx <? Z.of_nat (length packages))
             then selected_indices ∪ {[idx]} else selected_indices)
      end
  end.

(** [selected_indices] for a stripped, lower-cased [selection]. *)
Definition selected_indices_of (packages : list string) (selection : string)
  : option (gset Z) :=
  if String.eqb selection "all"
  then Some (list_to_set (seqZ 0 (Z.of_nat (length packages))))
  else if negb (String.eqb selection "none")
  then collect_indices packages (Py.split_on (Py.chr 44) selection) ∅
  else Some ∅.

(** [packages.index(x)] when [x in packages]. *)
Fixpoint index_of (x : string) (l : list string) : option Z :=
  match l with
  | [] => None
  | y :: r => if String.eqb y x then Some 0
              else option_map Z.succ (index_of x r)
  end.

(** The loop that turns the selected indices into the result. *)
Definition process_selections (packages docker_pkgs : list string)
    (selected_indices : gset Z) : dict :=
  fold_left
    (fun result ip =>
       let '(i, pkg) := ip in
       if bool_decide (i ∈ selected_indices) then
         if String.eqb pkg "docker" then
           fold_left (fun result docker_pkg => dict_set result docker_pkg true)
                     docker_pkgs result
         else dict_set result pkg true
       else result)
    (Py.enumerate packages 0) [].

Definition menu_lines (packages : list string) : list event :=
  [Printed (Py.nl +:+ "Package Selection Menu");
   Printed "----------------------";
   Printed "Available packages:"]
  ++ map (fun ip => Printed (Py.str_int (fst ip) +:+ ") " +:+ snd ip))
         (Py.enumerate packages 1)
  ++ [Printed (Py.nl +:+ "Enter package numbers to install (comma-separated, e.g., '1,3,5')");
      Printed "Type 'all' to select all packages or 'none' to select none"].

Definition confirmation_lines (result : dict) : list event :=
  Printed (Py.nl +:+ "Selected packages:") ::
  match selected_keys result with
  | [] => [Printed "- None"]
  | selected_pkgs => map (fun pkg => Printed ("- " +:+ pkg)) selected_pkgs
  end.

Definition prompt : string := "Your selection: ".

(** What a call raises when the interpreter has no room left for it. *)
Definition RecursionError : raised :=
  Exc "RecursionError" (recursion_message env).

(** [display_package_menu]: what it prints and reads, what it returns or
    raises, and the terminal input it leaves. [self_docker_available] is
    the attribute of [self] it reads. The function shows itself again by
    calling itself, so every rejected line costs a level of the
    interpreter's stack: [room] is the number of nested activations there
    is room for, this one included, and a call with no room left raises
    [RecursionError] before it does anything. *)
Fixpoint display_package_menu (room : nat) (self_docker_available : bool)
    (packages docker_pkgs : list string) (stdin : list stdin_item)
  : list event * result dict * list stdin_item :=
  match room with
  | O => ([], Raise RecursionError, stdin)
  | S room =>
      match stdin with
      | [] =>
          (menu_lines packages ++ [Prompted prompt None],
           Raise (Exc "EOFError" "EOF when reading a line"), [])
      | CtrlC :: rest =>
          (menu_lines packages ++ [Prompted prompt (Some CtrlC)],
           Raise KeyboardInterrupt, rest)
      | Line l :: rest =>
          let selection := Py.lower (Py.strip l) in
          match selected_indices_of packages selection with
          | None =>
              let '(evs, r, rest') :=
                display_package_menu room self_docker_available packages
                  docker_pkgs rest in
              (menu_lines packages
               ++ [Prompted prompt (Some (Line l));
                   Printed "Invalid selection format. Please use numbers separated by commas."]
               ++ evs, r, rest')
          | Some selected_indices =>
              let docker_item_index :=
                if existsb (String.eqb "docker") packages && self_docker_available
                then index_of "docker" packages else None in
              let docker_selected :=
                match docker_item_index with
                | Some i => bool_decide (i ∈ selected_indices)
                | None => false
                end in
              let result :=
                process_selections packages docker_pkgs selected_indices in
              (menu_lines packages ++ [Prompted prompt (Some (Line l))]
               ++ confirmation_lines result, Ret result, rest)
          end
      end
  end.

(** The call [self.display_package_menu(pkgs, docker_pkgs)] within a run. *)
Definition call_display_package_menu (packages docker_pkgs : list string)
  : M dict :=
  fun st =>
    let '(evs, r, rest) :=
      display_package_menu (recursion_room env) (docker_available st) packages
        docker_pkgs (stdin st) in
    (r, with_stdin rest (emits evs st)).

Definition base_pkgs : list string :=
  ["1password-cli"; "bitwarden-cli"; "certbot"; "cmake"; "cockpit";
   "fail2ban"; "fdupes"; "ffmpeg"; "nginx"; "nodejs"; "npm"; "nvm";
   "pandoc"; "rclone"; "timeshift"].

Definition docker_sub_pkgs : list string :=
  ["containerd.io"; "docker-buildx-plugin"; "docker-ce"; "docker-ce-cli";
   "docker-compose-plugin"].

(** [run_command(cmd, shell=True, check=False)], result dropped. *)
Definition sh (cmd : string) : M unit :=
  _ <- run_command (CmdStr cmd) true false ;; ret tt.

Definition install_plex : M unit :=
  installed <- is_installed "plexmediaserver" ;;
  if negb installed then
    log INFO fmt["Installing Plex Media Server..."] ;;
    log INFO fmt["Adding Plex repository..."] ;;
    sh "curl -fsSL https://downloads.plex.tv/plex-keys/PlexSign.key | gpg --dearmor | tee /usr/share/keyrings/plex.gpg > /dev/null" ;;
    sh ("echo " +:+ Py.dq +:+ "deb [signed-by=/usr/share/keyrings/plex.gpg] https://downloads.plex.tv/repo/deb public main" +:+ Py.dq +:+ " | tee /etc/apt/sources.list.d/plexmediaserver.list > /dev/null") ;;
    sh "apt update > /dev/null" ;;
    sh "apt install -y plexmediaserver" ;;
    sh "systemctl enable plexmediaserver" ;;
    sh "systemctl start plexmediaserver"
  else log INFO fmt["Plex Media Server is already installed, skipping."].

Definition install_bitwarden_cli : M unit :=
  log INFO fmt["Installing Bitwarden CLI..."] ;;
  installed <- is_installed "build-essential" ;;
  when (negb installed)
    (log INFO fmt["Installing build-essential package for Bitwarden CLI..."] ;;
     sh "apt install -y build-essential") ;;
  installed <- is_installed "npm" ;;
  when (negb installed)
    (log INFO fmt["Installing npm for Bitwarden CLI..."] ;;
     sh "apt install -y npm") ;;
  log INFO fmt["Installing Bitwarden CLI using npm..."] ;;
  sh "npm install -g @bitwarden/cli" ;;
  log INFO fmt["Bitwarden CLI installation completed."].

Definition install_1password_cli : M unit :=
  log INFO fmt["Installing 1Password CLI..."] ;;
  sh "apt update" ;;
  sh "apt install -y gnupg2 apt-transport-https ca-certificates software-properties-common" ;;
  sh "curl -fsSL https://downloads.1password.com/linux/keys/1password.asc | gpg --dearmor --output /usr/share/keyrings/1password-archive-keyring.gpg" ;;
  sh ("echo " +:+ Py.dq +:+ "deb [arch=amd64 signed-by=/usr/share/keyrings/1password-archive-keyring.gpg] https://downloads.1password.com/linux/debian/amd64 stable main" +:+ Py.dq +:+ " | tee /etc/apt/sources.list.d/1password.list > /dev/null") ;;
  sh "mkdir -p /etc/debsig/policies/AC2D62742012EA22/" ;;
  sh "curl -fsSL https://downloads.1password.com/linux/debian/debsig/1password.pol | tee /etc/debsig/policies/AC2D62742012EA22/1password.pol > /dev/null" ;;
  sh "mkdir -p /usr/share/debsig/keyrings/AC2D62742012EA22/" ;;
  sh "curl -fsSL https://downloads.1password.com/linux/keys/1password.asc | gpg --dearmor --output /usr/share/debsig/keyrings/AC2D62742012EA22/debsig.gpg" ;;
  sh "apt update > /dev/null && apt install -y 1password-cli" ;;
  log INFO fmt["1Password CLI installation completed."].

Definition install_nvm : M unit :=
  log INFO fmt["Installing NVM (Node Version Manager)..."] ;;
  sh "apt install -y nvm" ;;
  log INFO fmt["NVM installation completed."].

(** The body of the loop over the selected packages. *)
Definition install_one (pkg : string) : M unit :=
  if String.eqb pkg "plex" then install_plex
  else if String.eqb pkg "bitwarden-cli" then install_bitwarden_cli
  else if String.eqb pkg "1password-cli" then install_1password_cli
  else if String.eqb pkg "nvm" then install_nvm
  else
    installed <- is_installed pkg ;;
    if negb installed then
      log INFO fmt["Installing "; pkg; "..."] ;;
      sh ("apt install -y " +:+ pkg)
    else log INFO fmt[pkg; " is already installed, skipping."].

(** Whether the output of the [apt-cache] probe offers Docker, and the
    two lists [install_packages] hands to the menu in each case. *)
Definition docker_probe (apt_cache_output : string) : bool :=
  Py.contains "Candidate:" apt_cache_output.

Definition candidate_pkgs (available : bool) : list string :=
  Py.sort ((if available then base_pkgs ++ ["docker"] else base_pkgs)
           ++ ["plex"]).

Definition candidate_docker_pkgs (available : bool) : list string :=
  if available then docker_sub_pkgs else [].

(** [display_package_menu] returns a dictionary on every path, so the
    [is None] branch of [install_packages] is never taken. *)
Definition install_packages : M unit :=
  let pkgs := base_pkgs in
  (fun st => (Ret tt, set_docker_available false st)) ;;
  let docker_pkgs := [] in
  r <- run_command (CmdStr "apt-cache policy docker-ce") true false ;;
  let '(_, apt_cache_output, _) := r in
  let available := docker_probe apt_cache_output in
  when available (fun st => (Ret tt, set_docker_available true st)) ;;
  let docker_pkgs := if available then docker_sub_pkgs else docker_pkgs in
  let pkgs := if available then pkgs ++ ["docker"] else pkgs in
  let pkgs := pkgs ++ ["plex"] in
  setup_docker_repository ;;
  let pkgs := Py.sort pkgs in
  log INFO fmt["Displaying package selection menu..."] ;;
  selected_packages_dict <- call_display_package_menu pkgs docker_pkgs ;;
  let selected_pkgs := selected_keys selected_packages_dict in
  log INFO fmt["Selected "; Py.str_int (Z.of_nat (length selected_pkgs));
               " packages for installation."] ;;
  for_each selected_pkgs install_one.

(** [sys.exit(code)] *)
Definition sys_exit {A} (code : Z) : M A := raise (SystemExit code).

Definition finalize_script : M unit :=
  log INFO fmt[Py.repeat_char (Py.chr 45) 40] ;;
  log INFO fmt["Script completed at "; Clock] ;;
  fun st =>
    (if error_flag st then
       log ERROR fmt[red "ERROR: There were errors during script execution."] ;;
       log ERROR fmt["Please check the log file at "; LOG_FILE; " for details."] ;;
       sys_exit 1
     else
       log INFO fmt[green "SUCCESS: Optional packages configured successfully."] ;;
       log INFO fmt["Log file is available at "; LOG_FILE] ;;
       sys_exit 0) st.

Definition run : M unit :=
  try_except_Exception
    (log INFO fmt["Starting optional packages setup at "; Clock] ;;
     log INFO fmt[blue "Starting optional packages setup..."] ;;
     install_packages ;;
     finalize_script)
    (fun name msg =>
       (fun st => (Ret tt, set_error_flag true st)) ;;
       log ERROR fmt["Error in main execution: "; msg] ;;
       sys_exit 1).

End Script.

(** ** The process *)

(** How the interpreter process ends. An unhandled [SystemExit(code)]
    ends it with status [code]; falling off the end of the script ends it
    with status 0; an unhandled [Exception] prints a traceback and ends
    it with status 1; an unhandled [KeyboardInterrupt] ends it as an
    interrupted process. *)
Inductive termination :=
| Exited (status : Z)
| Interrupted.

Definition initial_state (stdin : list stdin_item) : State :=
  {| history := []; stdin := stdin; error_flag := false;
     docker_available := false |}.

(** [setup = DebianSetup(); setup.run()] *)
Definition main (env : Env) (stdin : list stdin_item) : termination * State :=
  match run env (initial_state stdin) with
  | (Ret _, st) => (Exited 0, st)
  | (Raise (SystemExit code), st) => (Exited code, st)
  | (Raise (Exc _ _), st) => (Exited 1, st)
  | (Raise KeyboardInterrupt, st) => (Interrupted, st)
  end.

(** ** Auxiliary definitions for the statements *)

(** The events a computation adds to the history of [st]. *)
Definition events_of {A} (m : M A) (st : State) : list event :=
  drop (length (history st)) (history (snd (m st))).

(** The processes launched among some events, with the [shell] flag, and
    what came of them. *)
Definition launched (evs : list event) : list (Command * bool) :=
  flat_map (fun ev => match ev with
                      | Popen cmd shell _ => [(cmd, shell)]
                      | _ => []
                      end) evs.

Definition outcomes (evs : list event) : list popen_outcome :=
  flat_map (fun ev => match ev with Popen _ _ o => [o] | _ => [] end) evs.

Definition is_log (ev : event) : bool :=
  match ev with Logged _ _ => true | _ => false end.

(** The records logged before the process is launched. *)
Definition run_command_prelude (command : Command) (shell check : bool)
  : list event :=
  Logged DEBUG fmt["Executing command: '"; cmd_str_of command; "', shell=";
                   Py.str_bool shell; ", check="; Py.str_bool check]
  :: match command with
     | CmdStr s =>
         if negb shell
         then [Logged DEBUG fmt["Split command into: "; Repr (Py.split s)]]
         else []
     | CmdList _ => []
     end
  ++ [Logged DEBUG fmt["Command execution started at "; Clock]].

(** The records logged on a failed command under [check=True]. *)
Definition failure_records (command : Command) (returncode : Z)
    (stderr : string) : list event :=
  [Logged ERROR fmt["Command failed: "; cmd_str_of command];
   Logged ERROR fmt["Error: "; Py.strip stderr];
   Logged DEBUG fmt["Failed command details - return code: ";
                    Py.str_int returncode; ", execution time: "; Elapsed; "s"]].

(** The records logged once the process has ended, whatever [check]. *)
Definition completion_records (returncode : Z) (stdout stderr : string)
  : list event :=
  [Logged DEBUG fmt["Command execution completed in "; Elapsed;
                    " seconds with return code "; Py.str_int returncode]]
  ++ (if nonempty stdout
      then [Logged DEBUG fmt["Command stdout: "; truncated stdout]] else [])
  ++ (if nonempty stderr
      then [Logged DEBUG fmt["Command stderr: "; truncated stderr]] else []).

Definition run_command_epilogue (command : Command) (check : bool)
    (o : popen_outcome) : list event :=
  match o with
  | Completed returncode stdout stderr =>
      completion_records returncode stdout stderr
      ++ (if check && negb (returncode =? 0)
          then failure_records command returncode stderr else [])
  | PopenRaised (Exc name msg) =>
      [Logged ERROR fmt["Exception running command "; cmd_str_of command;
                        ": "; msg];
       Logged DEBUG fmt["Command exception details: "; name; ", "; msg];
       Logged DEBUG fmt["Exception traceback:"]]
  | PopenRaised _ => []
  end.

Definition run_command_result (o : popen_outcome)
  : result (Z * string * string) :=
  match o with
  | Completed returncode stdout stderr =>
      Ret (returncode, Py.strip stdout, Py.strip stderr)
  | PopenRaised (Exc _ msg) => Ret (1, EmptyString, msg)
  | PopenRaised e => Raise e
  end.

(** The outcome of the process [run_command] launches from [st]. *)
Definition run_command_outcome (env : Env) (command : Command)
    (shell check : bool) (st : State) : popen_outcome :=
  popen env (history st ++ run_command_prelude command shell check)
        (popen_argument command shell) shell.

(** [for k in l: d[k] = True] *)
Definition set_all (d : dict) (l : list string) : dict :=
  fold_left (fun result k => dict_set result k true) l d.

(** The names the selected entries of the menu stand for, in the order of
    the menu: the entry [docker] stands for [docker_pkgs], any other for
    itself. *)
Definition expansion (packages docker_pkgs : list string)
    (selected_indices : gset Z) : list string :=
  flat_map
    (fun ip : Z * string =>
       if bool_decide (fst ip ∈ selected_indices) then
         if String.eqb (snd ip) "docker" then docker_pkgs else [snd ip]
       else [])
    (Py.enumerate packages 0).

(** The names all the entries of the menu stand for. *)
Definition full_expansion (packages docker_pkgs : list string) : list string :=
  flat_map (fun pkg => if String.eqb pkg "docker" then docker_pkgs else [pkg])
           packages.

(** The entries of [packages], numbered from [start], whose number is in
    [selected_indices]. *)
Definition picked (packages : list string) (start : Z)
    (selected_indices : gset Z) : list string :=
  map snd (filter (fun ip : Z * string => fst ip ∈ selected_indices)
                  (Py.enumerate packages start)).

(** The three components of what [display_package_menu] comes to. *)
Definition menu_events {A B C} (t : A * B * C) : A := fst (fst t).
Definition menu_result {A B C} (t : A * B * C) : B := snd (fst t).
Definition menu_rest {A B C} (t : A * B * C) : C := snd t.

(** How many times some events prompt the user. *)
Definition is_prompt (ev : event) : bool :=
  match ev with Prompted _ _ => true | _ => false end.

Definition prompts (evs : list event) : nat :=
  length (List.filter is_prompt evs).

(** The comma-separated pieces of a selection, and the pieces [int]
    rejects. *)
Definition tokens_of (selection : string) : list string :=
  Py.split_on (Py.chr 44) selection.

Definition bad_token (env : Env) (num : string) : Prop :=
  Py.int (int_max_str_digits env) (Py.strip num) = None.

(** The selection [display_package_menu] ends up accepting when there is
    room for [room] nested activations: that of the first line it does
    not reject, if the input holds one before it ends or is interrupted
    and before the room runs out. *)
Fixpoint accepted_selection (env : Env) (room : nat) (packages : list string)
    (stdin : list stdin_item) : option (gset Z) :=
  match room, stdin with
  | S room, Line l :: rest =>
      match selected_indices_of env packages (Py.lower (Py.strip l)) with
      | Some selected_indices => Some selected_indices
      | None => accepted_selection env room packages rest
      end
  | _, _ => None
  end.

(** A line that, whitespace aside, starts with the status [ii]. *)
Definition ii_line (line : string) : bool :=
  Py.startswith (Py.strip line) "ii".

(** Whether some line of [s] is an [ii_line], read character by
    character; [fresh] tells that the current line has shown whitespace
    only so far. *)
Fixpoint has_ii_line (fresh : bool) (s : string) : bool :=
  match s with
  | EmptyString => false
  | String c r =>
      (fresh && String.prefix "ii" s)
      || (if Ascii.eqb c Py.nl_char then has_ii_line true r
          else if Py.isspace c then has_ii_line fresh r
          else has_ii_line false r)
  end.

(** ** Sample environments *)

(** Every command exits with status 1; the key file is missing; the
    sources list can be written. *)
Definition env_failing : Env :=
  {| int_max_str_digits := 4300;
     recursion_room := 996;
     recursion_message := "maximum recursion depth exceeded while calling a Python object";
     popen := fun _ _ _ =>
       Completed 1 EmptyString ("E: Could not open lock file" +:+ Py.nl);
     os_path_exists := fun _ _ => false;
     open_write := fun _ _ _ => None |}.

(** The user interrupts every command from the keyboard. *)
Definition env_interrupted : Env :=
  {| int_max_str_digits := 4300;
     recursion_room := 996;
     recursion_message := "maximum recursion depth exceeded while calling a Python object";
     popen := fun _ _ _ => PopenRaised KeyboardInterrupt;
     os_path_exists := fun _ _ => false;
     open_write := fun _ _ _ => None |}.

(** What [dpkg -l nginx] prints for a package that was removed with its
    configuration files left behind. *)
Definition dpkg_removed_output : string :=
  "Desired=Unknown/Install/Remove/Purge/Hold" +:+ Py.nl +:+
  "| Status=Not/Inst/Conf-files/Unpacked/halF-conf/Half-inst/trig-aWait/Trig-pend" +:+ Py.nl +:+
  "|/ Err?=(none)/Reinst-required (Status,Err: uppercase=bad)" +:+ Py.nl +:+
  "||/ Name           Version      Architecture Description" +:+ Py.nl +:+
  "+++-==============-============-============-=================================" +:+ Py.nl +:+
  "rc  nginx          1.22.1-9     amd64        small, powerful, scalable web/proxy server" +:+ Py.nl.

Definition env_removed : Env :=
  {| int_max_str_digits := 4300;
     recursion_room := 996;
     recursion_message := "maximum recursion depth exceeded while calling a Python object";
     popen := fun _ _ _ => Completed 0 dpkg_removed_output EmptyString;
     os_path_exists := fun _ _ => true;
     open_write := fun _ _ _ => None |}.

(** ** Computations that leave the error flag alone *)

(** [m] keeps the error flag and adds to the history only events that
    [P] accepts. *)
Definition emits_only {A} (P : event -> bool) (m : M A) : Prop :=
  forall st,
    error_flag (snd (m st)) = error_flag st
    /\ exists evs,
        history (snd (m st)) = history st ++ evs /\ forallb P evs = true.

(** The state in which [run] calls [install_packages]. *)
Definition started (stdin : list stdin_item) : State :=
  emits [Logged INFO fmt["Starting optional packages setup at "; Clock];
         Logged INFO fmt[blue "Starting optional packages setup..."]]
        (initial_state stdin).

(** ** The phases of a run *)

(** The commands of the repository set-up. *)
Definition repository_cmds : list string :=
  ["install -m 0755 -d /etc/apt/keyrings";
   "curl -fsSL https://download.docker.com/linux/debian/gpg"
   +:+ " | " +:+ "gpg --dearmor -o /etc/apt/keyrings/docker.gpg";
   "chmod a+r /etc/apt/keyrings/docker.gpg";
   ". /etc/os-release && echo " +:+ Py.dq +:+ "$VERSION_CODENAME" +:+ Py.dq;
   "dpkg --print-architecture";
   "apt update"].

(** What each phase may do besides logging: the probe launches the
    [apt-cache] query; the repository set-up launches its commands, looks
    for the key file and writes the sources list; the menu prints and
    prompts; the installation launches shell commands; the summary only
    logs. *)
Definition probe_event (ev : event) : bool :=
  match ev with
  | Logged _ _ => true
  | Popen (CmdStr c) true _ => String.eqb c "apt-cache policy docker-ce"
  | _ => false
  end.

Definition repository_event (ev : event) : bool :=
  match ev with
  | Logged _ _ => true
  | Popen (CmdStr c) true _ => existsb (String.eqb c) repository_cmds
  | PathChecked path _ => String.eqb path "/etc/apt/keyrings/docker.gpg"
  | Wrote path _ _ => String.eqb path "/etc/apt/sources.list.d/docker.list"
  | _ => false
  end.

Definition menu_event (ev : event) : bool :=
  match ev with
  | Logged _ _ | Printed _ | Prompted _ _ => true
  | _ => false
  end.

Definition install_event (ev : event) : bool :=
  match ev with
  | Logged _ _ => true
  | Popen (CmdStr _) true _ => true
  | _ => false
  end.

Definition any_event (ev : event) : bool := true.

(** The phases of a run after the list of packages is laid out: the probe
    for Docker, the repository set-up, the menu, the installation of the
    selection and the summary. *)
Inductive phase := Probe | Repository | Menu | Install | Summary.

Definition all_phases : list phase := [Probe; Repository; Menu; Install; Summary].


(** The steps of [install_packages] that make up a phase each. *)
Definition probe_step (env : Env) : M (Z * string * string) :=
  run_command env (CmdStr "apt-cache policy docker-ce") true false.

Definition menu_step (env : Env) (available : bool) : M dict :=
  log INFO fmt["Displaying package selection menu..."] ;;
  call_display_package_menu env (candidate_pkgs available)
    (candidate_docker_pkgs available).

Definition install_step (env : Env) (selected_packages_dict : dict) : M unit :=
  let selected_pkgs := selected_keys selected_packages_dict in
  log INFO fmt["Selected "; Py.str_int (Z.of_nat (length selected_pkgs));
               " packages for installation."] ;;
  for_each selected_pkgs (install_one env).

(** The phases a run goes through, each with the events it adds to the
    history, computed by running the steps one after the other, each from
    the state the one before has left, up to the first that raises. *)
Definition phases (env : Env) (stdin : list stdin_item)
  : list (phase * list event) :=
  let st0 := set_docker_available false (started stdin) in
  (Probe, events_of (probe_step env) st0) ::
  match probe_step env st0 with
  | (Raise _, _) => []
  | (Ret (_, apt_cache_output, _), st1) =>
      let available := docker_probe apt_cache_output in
      let st1 := if available then set_docker_available true st1 else st1 in
      (Repository, events_of (setup_docker_repository env) st1) ::
      match setup_docker_repository env st1 with
      | (Raise _, _) => []
      | (Ret _, st2) =>
          (Menu, events_of (menu_step env available) st2) ::
          match menu_step env available st2 with
          | (Raise _, _) => []
          | (Ret d, st3) =>
              (Install, events_of (install_step env d) st3) ::
              match install_step env d st3 with
              | (Raise _, _) => []
              | (Ret _, st4) => [(Summary, events_of finalize_script st4)]
              end
          end
      end
  end.

(** The sources list cannot be written: the script is not run as root. *)
Definition env_unprivileged : Env :=
  {| int_max_str_digits := 4300;
     recursion_room := 996;
     recursion_message := "maximum recursion depth exceeded while calling a Python object";
     popen := fun _ _ _ =>
       Completed 1 EmptyString ("E: Could not open lock file" +:+ Py.nl);
     os_path_exists := fun _ _ => true;
     open_write := fun _ path _ =>
       Some (Exc "PermissionError"
               ("[Errno 13] Permission denied: '" +:+ path +:+ "'")) |}.

(** The two verdicts of [finalize_script]. *)
Definition error_verdict : event :=
  Logged ERROR fmt[red "ERROR: There were errors during script execution."].

Definition success_verdict : event :=
  Logged INFO fmt[green "SUCCESS: Optional packages configured successfully."].

(** An event other than a verdict. *)
Definition no_verdict (ev : event) : bool :=
  match ev with
  | Logged _ [Lit s] =>
      negb (String.eqb s (red "ERROR: There were errors during script execution."))
      && negb (String.eqb s (green "SUCCESS: Optional packages configured successfully."))
  | _ => true
  end.

(** The four records of the success summary. *)
Definition success_summary : list event :=
  [Logged INFO fmt[Py.repeat_char (Py.chr 45) 40];
   Logged INFO fmt["Script completed at "; Clock];
   success_verdict;
   Logged INFO fmt["Log file is available at "; LOG_FILE]].

(** ** The repository set-up *)

(** What a computation does besides logging. *)
Definition actions (evs : list event) : list event :=
  List.filter (fun ev => negb (is_log ev)) evs.

(** An environment where launching a process raises nothing outside the
    [Exception] hierarchy. *)
Definition tame (env : Env) : Prop :=
  forall h command shell e,
    popen env h command shell = PopenRaised e -> is_Exception e = true.

(** The standard output [run_command] hands back for an outcome. *)
Definition output_of (o : popen_outcome) : string :=
  match o with
  | Completed _ stdout _ => Py.strip stdout
  | PopenRaised _ => EmptyString
  end.

(** The line of the sources list for an architecture and a code name. *)
Definition docker_repo (arch codename : string) : string :=
  "deb [arch=" +:+ arch +:+ " signed-by=/etc/apt/keyrings/docker.gpg] "
  +:+ "https://download.docker.com/linux/debian " +:+ codename +:+ " stable".

(** [m], run from [st], ends with [r] and adds [evs] to the history,
    leaving the rest of the state alone. *)
Definition runs {A} (m : M A) (st : State) (r : result A) (evs : list event)
  : Prop :=
  m st = (r, emits evs st).

(** ** The installation loop *)

(** A computation that returns from every state. *)
Definition returns {A} (m : M A) : Prop :=
  forall st, exists a, fst (m st) = Ret a.

(** The packages [install_packages] installs in a way of their own. *)
Definition special_pkgs : list string :=
  ["plex"; "bitwarden-cli"; "1password-cli"; "nvm"].

(** Whether the outcome of a [dpkg -l] query reports the package as
    installed. *)
Definition reported_installed (o : popen_outcome) : bool :=
  match o with
  | Completed returncode stdout _ =>
      (returncode =? 0) && existsb ii_line (Py.split_on Py.nl_char stdout)
  | PopenRaised _ => false
  end.

(** ** Input that is never accepted *)




(** * Properties *)

(** ** Histories only grow *)

Lemma emits_nil st : emits [] st = st.
Proof. destruct st; unfold emits; simpl. by rewrite app_nil_r. Qed.

Lemma emit_emits ev st : emit ev st = emits [ev] st.
Proof. reflexivity. Qed.

Lemma emits_emits evs1 evs2 st :
  emits evs2 (emits evs1 st) = emits (evs1 ++ evs2) st.
Proof. unfold emits; simpl. by rewrite app_assoc. Qed.

Lemma history_emits evs st : history (emits evs st) = history st ++ evs.
Proof. reflexivity. Qed.

Lemma drop_history h (evs : list event) : drop (length h) (h ++ evs) = evs.
Proof. by rewrite drop_app_length. Qed.

(** ** [run_command], step by step *)

Lemma run_command_spec env command shell check st :
  let o := run_command_outcome env command shell check st in
  run_command env command shell check st =
    (run_command_result o,
     emits (run_command_prelude command shell check
            ++ Popen (popen_argument command shell) shell o
            :: run_command_epilogue command check o) st).
Proof.
  unfold run_command_outcome, run_command, run_command_prelude,
    try_except_Exception, bind, log, spawn, ret.
  destruct command as [s|argv], shell; cbn [negb popen_argument];
    unfold bind, log, ret; rewrite ?emit_emits, ?emits_emits;
    cbn [history emits app];
    rewrite <- ?app_assoc; cbn [app];
    match goal with |- context [popen env ?h ?c ?b] =>
      destruct (popen env h c b) as [rc out err|[name msg| |code]] end;
    cbn [run_command_result run_command_epilogue];
    unfold completion_records, failure_records, when, bind, log, ret;
    rewrite ?emit_emits, ?emits_emits; try reflexivity;
    destruct (nonempty out), (nonempty err), check, (rc =? 0);
    cbn [andb negb]; unfold bind, ret;
    rewrite ?emit_emits, ?emits_emits; cbn [app];
    rewrite <- ?app_assoc; reflexivity.
Qed.

(** ** [str.split()] *)

Lemma split_head_word c r :
  Py.isspace c = false ->
  exists t ts, Py.split (String c r) = String c t :: ts.
Proof.
  intros Hc. cbn [Py.split]. rewrite Hc.
  destruct r as [|c' r0]; [by eexists _, _|].
  destruct (Py.isspace c'); [by eexists _, _|].
  destruct (Py.split (String c' r0)); by eexists _, _.
Qed.

Lemma split_words s :
  Forall (fun tok => Py.is_word tok = true) (Py.split s).
Proof.
  induction s as [|c r IH]; [constructor|].
  cbn [Py.split]. destruct (Py.isspace c) eqn:Hc; [done|].
  assert (Hw : Py.is_word (Py.str1 c) = true) by (cbn; by rewrite Hc).
  destruct r as [|c' r0]; [by constructor|].
  destruct (Py.isspace c') eqn:Hc'; [by constructor|].
  destruct (Py.split (String c' r0)) as [|t ts]; [by constructor|].
  inversion IH as [|? ? Ht Hts]; subst. constructor; [|done].
  destruct t; [done|]. cbn in Ht |- *. by rewrite Hc.
Qed.

Lemma split_concat s :
  String.concat EmptyString (Py.split s) = Py.remove_spaces s.
Proof.
  induction s as [|c r IH]; [done|].
  cbn [Py.split Py.remove_spaces]. destruct (Py.isspace c) eqn:Hc; [done|].
  destruct r as [|c' r0]; [done|].
  destruct (Py.isspace c') eqn:Hc'.
  - rewrite <- IH. cbn [Py.split]. rewrite Hc'.
    cbn [String.concat]. by destruct (Py.split r0).
  - destruct (split_head_word c' r0 Hc') as (t & ts & E).
    rewrite E in IH |- *. rewrite <- IH.
    cbn [String.concat]. by destruct ts.
Qed.

Lemma split_cons c r :
  Py.split (String c r) =
  if Py.isspace c then Py.split r
  else match r with
       | EmptyString => [Py.str1 c]
       | String c' _ =>
           if Py.isspace c' then Py.str1 c :: Py.split r
           else match Py.split r with
                | t :: ts => String c t :: ts
                | [] => [Py.str1 c]
                end
       end.
Proof. reflexivity. Qed.

Lemma split_space_app s1 s2 :
  Py.split (s1 +:+ " " +:+ s2) = Py.split s1 ++ Py.split s2.
Proof.
  induction s1 as [|c r IH]; [done|].
  change (String c r +:+ " " +:+ s2) with (String c (r +:+ " " +:+ s2)).
  rewrite !(split_cons c). destruct (Py.isspace c) eqn:Hc; [done|].
  rewrite IH. destruct r as [|c' r0]; [done|].
  change (String c' r0 +:+ " " +:+ s2) with (String c' (r0 +:+ " " +:+ s2)).
  cbv iota. destruct (Py.isspace c') eqn:Hc'; [done|].
  destruct (split_head_word c' r0 Hc') as (t & ts & ->). done.
Qed.

Lemma split_word s : Py.is_word s = true -> Py.split s = [s].
Proof.
  induction s as [|c r IH]; [done|]. cbn. intros [Hc Hr]%andb_prop.
  apply negb_true_iff in Hc. rewrite Hc.
  destruct r as [|c' r0]; [done|].
  cbn in Hr. apply andb_prop in Hr as [Hc' Hr0].
  pose proof Hc' as Hc''. apply negb_true_iff in Hc''. rewrite Hc''.
  rewrite IH; [done|]. cbn. by rewrite Hc', Hr0.
Qed.

(** ** What [run_command] launches and returns *)

Lemma launched_app evs1 evs2 :
  launched (evs1 ++ evs2) = launched evs1 ++ launched evs2.
Proof. apply flat_map_app. Qed.

Lemma outcomes_app evs1 evs2 :
  outcomes (evs1 ++ evs2) = outcomes evs1 ++ outcomes evs2.
Proof. apply flat_map_app. Qed.

Lemma prelude_is_log command shell check :
  forallb is_log (run_command_prelude command shell check) = true.
Proof. by destruct command, shell. Qed.

Lemma completion_is_log rc out err :
  forallb is_log (completion_records rc out err) = true.
Proof. unfold completion_records. by destruct (nonempty out), (nonempty err). Qed.

Lemma epilogue_is_log command check o :
  forallb is_log (run_command_epilogue command check o) = true.
Proof.
  destruct o as [rc out err|[name msg| |code]]; try done.
  cbn [run_command_epilogue]. rewrite forallb_app, completion_is_log.
  by destruct (check && negb (rc =? 0)).
Qed.

Lemma launched_logs evs : forallb is_log evs = true -> launched evs = [].
Proof.
  induction evs as [|[] evs IH]; cbn; try done; intros H; by apply IH.
Qed.

Lemma outcomes_logs evs : forallb is_log evs = true -> outcomes evs = [].
Proof.
  induction evs as [|[] evs IH]; cbn; try done; intros H; by apply IH.
Qed.

Lemma events_of_emits {A} (m : M A) st evs r :
  m st = (r, emits evs st) -> events_of m st = evs.
Proof. unfold events_of. intros ->. cbn. apply drop_history. Qed.

Lemma events_of_run_command env command shell check st :
  events_of (run_command env command shell check) st =
  run_command_prelude command shell check
  ++ Popen (popen_argument command shell) shell
       (run_command_outcome env command shell check st)
  :: run_command_epilogue command check
       (run_command_outcome env command shell check st).
Proof. eapply events_of_emits, run_command_spec. Qed.

Lemma launched_run_command env command shell check st :
  launched (events_of (run_command env command shell check) st) =
  [(popen_argument command shell, shell)].
Proof.
  rewrite events_of_run_command, launched_app.
  rewrite (launched_logs _ (prelude_is_log _ _ _)). cbn.
  by rewrite (launched_logs _ (epilogue_is_log _ _ _)).
Qed.

Lemma outcomes_run_command env command shell check st :
  outcomes (events_of (run_command env command shell check) st) =
  [run_command_outcome env command shell check st].
Proof.
  rewrite events_of_run_command, outcomes_app.
  rewrite (outcomes_logs _ (prelude_is_log _ _ _)). cbn.
  by rewrite (outcomes_logs _ (epilogue_is_log _ _ _)).
Qed.

(** C7. A command given as a string with [shell=False] reaches the process
    launcher split on whitespace into its words; a string with
    [shell=True] and a command given as a list reach it as they are.
    The words of [s] are not empty, hold no whitespace, make up [s] less
    its whitespace, and are cut wherever a space stands. *)
Theorem run_command_splits_string_commands :
  forall env st check,
    (forall s,
        launched (events_of (run_command env (CmdStr s) false check) st)
        = [(CmdList (Py.split s), false)])
    /\ (forall s,
        launched (events_of (run_command env (CmdStr s) true check) st)
        = [(CmdStr s, true)])
    /\ (forall argv shell,
        launched (events_of (run_command env (CmdList argv) shell check) st)
        = [(CmdList argv, shell)])
    /\ (forall s,
        Forall (fun word => Py.is_word word = true) (Py.split s)
        /\ String.concat EmptyString (Py.split s) = Py.remove_spaces s)
    /\ (forall s1 s2,
        Py.split (s1 +:+ " " +:+ s2) = Py.split s1 ++ Py.split s2).
Proof.
  intros env st check. repeat split; intros.
  - apply launched_run_command.
  - apply launched_run_command.
  - apply launched_run_command.
  - apply split_words.
  - apply split_concat.
  - apply split_space_app.
Qed.

(** C8, as stated, fails: an interrupt from the keyboard while the process
    runs is no instance of [Exception] and leaves [run_command] as a
    raised [KeyboardInterrupt]. *)
Lemma run_command_propagates_KeyboardInterrupt :
  fst (run_command env_interrupted (CmdStr "apt update") true false
         (initial_state []))
  = Raise KeyboardInterrupt
  /\ ~ (forall env command shell check st,
           exists triple,
             fst (run_command env command shell check st) = Ret triple).
Proof.
  split; [reflexivity|].
  intros H.
  destruct (H env_interrupted (CmdStr "apt update") true false
              (initial_state [])) as [t Ht].
  discriminate Ht.
Qed.

(** C8, amended. [run_command] launches one process. When the process
    ends, it returns the return code with both outputs stripped; when
    launching or communicating raises an instance of [Exception], it
    returns 1, the empty string and the message of the exception; any
    other raised object (a [KeyboardInterrupt], a [SystemExit]) reaches
    the caller. *)
Theorem run_command_returns_or_propagates :
  forall env command shell check st,
  exists o,
    outcomes (events_of (run_command env command shell check) st) = [o]
    /\ fst (run_command env command shell check st) =
       match o with
       | Completed returncode stdout stderr =>
           Ret (returncode, Py.strip stdout, Py.strip stderr)
       | PopenRaised (Exc _ msg) => Ret (1, EmptyString, msg)
       | PopenRaised KeyboardInterrupt => Raise KeyboardInterrupt
       | PopenRaised (SystemExit code) => Raise (SystemExit code)
       end.
Proof.
  intros. exists (run_command_outcome env command shell check st).
  split; [apply outcomes_run_command|].
  rewrite run_command_spec. cbn [fst].
  by destruct (run_command_outcome env command shell check st) as [|[]].
Qed.

(** C2, as stated, fails: a command run with [check=True] that exits with
    status 1 returns to its caller, with the value it returns under
    [check=False]; a run in which every command fails still launches each
    command of the repository set-up, all of them under [check=True], and
    ends with status 0. *)
Lemma strict_check_failure_does_not_abort :
  fst (run_command env_failing (CmdStr "apt update") true true
         (initial_state []))
  = Ret (1, EmptyString, "E: Could not open lock file")
  /\ fst (run_command env_failing (CmdStr "apt update") true true
            (initial_state []))
     = fst (run_command env_failing (CmdStr "apt update") true false
              (initial_state []))
  /\ fst (main env_failing [Line "none"]) = Exited 0
  /\ map fst (launched (history (snd (main env_failing [Line "none"]))))
     = [CmdStr "apt-cache policy docker-ce";
        CmdStr "install -m 0755 -d /etc/apt/keyrings";
        CmdStr ("curl -fsSL https://download.docker.com/linux/debian/gpg"
                +:+ " | gpg --dearmor -o /etc/apt/keyrings/docker.gpg");
        CmdStr "chmod a+r /etc/apt/keyrings/docker.gpg";
        CmdStr (". /etc/os-release && echo " +:+ Py.dq
                +:+ "$VERSION_CODENAME" +:+ Py.dq);
        CmdStr "dpkg --print-architecture";
        CmdStr "apt update"].
Proof. repeat split; vm_compute; reflexivity. Qed.

(** C2, amended. When the process ends, whatever its exit status,
    [run_command] returns to its caller with the same triple under
    [check=True] as under [check=False], raises nothing and leaves the
    error flag and the terminal input alone; [check=True] on a non-zero
    exit status only adds three log records after those written under
    [check=False]. *)
Theorem check_only_adds_log_records :
  forall env command shell check st returncode stdout stderr,
    outcomes (events_of (run_command env command shell check) st)
    = [Completed returncode stdout stderr] ->
    fst (run_command env command shell check st)
    = Ret (returncode, Py.strip stdout, Py.strip stderr)
    /\ error_flag (snd (run_command env command shell check st))
       = error_flag st
    /\ stdin (snd (run_command env command shell check st)) = stdin st
    /\ events_of (run_command env command shell check) st
       = run_command_prelude command shell check
         ++ [Popen (popen_argument command shell) shell
               (Completed returncode stdout stderr)]
         ++ completion_records returncode stdout stderr
         ++ (if check && negb (returncode =? 0)
             then failure_records command returncode stderr else []).
Proof.
  intros env command shell check st rc out err H.
  rewrite outcomes_run_command in H. injection H as H.
  rewrite events_of_run_command, run_command_spec, H. done.
Qed.

Lemma check_only_adds_log_records_witness :
  outcomes (events_of (run_command env_failing (CmdStr "apt update") true true)
              (initial_state []))
  = [Completed 1 EmptyString ("E: Could not open lock file" +:+ Py.nl)]
  /\ fst (run_command env_failing (CmdStr "apt update") true true
            (initial_state []))
     = Ret (1, Py.strip EmptyString,
            Py.strip ("E: Could not open lock file" +:+ Py.nl)).
Proof.
  split; [reflexivity|].
  apply (check_only_adds_log_records env_failing (CmdStr "apt update") true
           true (initial_state []) 1 EmptyString
           ("E: Could not open lock file" +:+ Py.nl)).
  reflexivity.
Defined.

(** ** Lines with the status [ii] *)

Lemma prefix_ii_cons c r :
  String.prefix "ii" (String c r) = Ascii.eqb c "i" && String.prefix "i" r.
Proof.
  cbn [String.prefix]. destruct (ascii_dec "i" c) as [<-|Hne]; [done|].
  symmetry. apply andb_false_iff. left. apply Ascii.eqb_neq. congruence.
Qed.

Lemma prefix_i_cons c r :
  String.prefix "i" (String c r) = Ascii.eqb c "i".
Proof.
  cbn [String.prefix]. destruct (ascii_dec "i" c) as [<-|Hne].
  - by destruct r.
  - symmetry. apply Ascii.eqb_neq. congruence.
Qed.

Lemma space_not_i c : Py.isspace c = true -> Ascii.eqb c "i" = false.
Proof.
  intros H. apply Ascii.eqb_neq. intros ->. discriminate H.
Qed.

Lemma nl_not_i c : Ascii.eqb c Py.nl_char = true -> Ascii.eqb c "i" = false.
Proof.
  intros H%Ascii.eqb_eq. subst. reflexivity.
Qed.

Lemma rstrip_head c r :
  Py.rstrip (String c r) = EmptyString
  \/ exists r', Py.rstrip (String c r) = String c r'.
Proof.
  cbn [Py.rstrip]. destruct (Py.rstrip r).
  - destruct (Py.isspace c); [by left|right; by eexists].
  - right; by eexists.
Qed.

Lemma rstrip_cons c r :
  Py.rstrip (String c r) =
  match Py.rstrip r with
  | EmptyString => if Py.isspace c then EmptyString else Py.str1 c
  | r' => String c r'
  end.
Proof. reflexivity. Qed.

Lemma rstrip_empty_head c r :
  Py.rstrip (String c r) = EmptyString -> Py.isspace c = true.
Proof.
  rewrite rstrip_cons. destruct (Py.rstrip r); [|done].
  by destruct (Py.isspace c).
Qed.

Lemma prefix_i_rstrip t : String.prefix "i" (Py.rstrip t) = String.prefix "i" t.
Proof.
  destruct t as [|c r]; [done|].
  rewrite prefix_i_cons.
  destruct (rstrip_head c r) as [E|[r' E]].
  - rewrite E. apply rstrip_empty_head in E.
    by rewrite space_not_i.
  - by rewrite E, prefix_i_cons.
Qed.

Lemma prefix_ii_rstrip t :
  String.prefix "ii" (Py.rstrip t) = String.prefix "ii" t.
Proof.
  destruct t as [|c r]; [done|].
  rewrite prefix_ii_cons, rstrip_cons.
  destruct (Py.rstrip r) as [|c' r'] eqn:E.
  - replace (String.prefix "i" r) with false.
    + rewrite andb_false_r. by destruct (Py.isspace c), c as [[] [] [] [] [] [] [] []].
    + rewrite <- prefix_i_rstrip, E. done.
  - rewrite prefix_ii_cons. f_equal. by rewrite <- (prefix_i_rstrip r), E.
Qed.

Lemma ii_line_lstrip line :
  ii_line line = String.prefix "ii" (Py.lstrip line).
Proof. apply prefix_ii_rstrip. Qed.

Lemma split_on_nonempty sep s : exists t ts, Py.split_on sep s = t :: ts.
Proof.
  destruct s as [|c r]; [by eexists _, _|]. cbn [Py.split_on].
  destruct (Ascii.eqb c sep); [by eexists _, _|].
  destruct (Py.split_on sep r); by eexists _, _.
Qed.

Lemma split_on_head_prefix_i r t ts :
  Py.split_on Py.nl_char r = t :: ts ->
  String.prefix "i" t = String.prefix "i" r.
Proof.
  destruct r as [|b r0]; cbn [Py.split_on].
  - by intros [= <- <-].
  - destruct (Ascii.eqb b Py.nl_char) eqn:Hb.
    + intros [= <- <-]. by rewrite prefix_i_cons, nl_not_i.
    + destruct (Py.split_on Py.nl_char r0); intros [= <- <-];
        unfold Py.str1; by rewrite !prefix_i_cons.
Qed.

Lemma has_ii_line_cons f c r :
  has_ii_line f (String c r) =
  (f && String.prefix "ii" (String c r))
  || (if Ascii.eqb c Py.nl_char then has_ii_line true r
      else if Py.isspace c then has_ii_line f r
      else has_ii_line false r).
Proof. reflexivity. Qed.

Lemma has_ii_line_split f s :
  has_ii_line f s =
  match Py.split_on Py.nl_char s with
  | t :: ts => (f && String.prefix "ii" (Py.lstrip t)) || existsb ii_line ts
  | [] => false
  end.
Proof.
  revert f. induction s as [|c r IH]; intros f; [by destruct f|].
  rewrite has_ii_line_cons, prefix_ii_cons. cbn [Py.split_on].
  destruct (Ascii.eqb c Py.nl_char) eqn:Hnl.
  - rewrite (nl_not_i _ Hnl), andb_false_r. cbn [orb Py.lstrip].
    rewrite andb_false_r. cbn [orb]. rewrite IH.
    destruct (Py.split_on Py.nl_char r) as [|t ts]; [done|].
    cbn [existsb andb]. by rewrite ii_line_lstrip.
  - destruct (split_on_nonempty Py.nl_char r) as (t & ts & E).
    rewrite E. cbn [Py.lstrip].
    destruct (Py.isspace c) eqn:Hc.
    + rewrite (space_not_i _ Hc), andb_false_r. cbn [orb].
      by rewrite IH, E.
    + rewrite IH, E, prefix_ii_cons. cbn [andb orb].
      by rewrite (split_on_head_prefix_i r t ts E).
Qed.

Lemma has_ii_line_lstrip s : has_ii_line true (Py.lstrip s) = has_ii_line true s.
Proof.
  induction s as [|c r IH]; [done|].
  cbn [Py.lstrip]. destruct (Py.isspace c) eqn:Hc; [|done].
  rewrite has_ii_line_cons, prefix_ii_cons, (space_not_i _ Hc), Hc, IH.
  cbn [andb orb]. by destruct (Ascii.eqb c Py.nl_char).
Qed.

Lemma has_ii_line_rstrip f s : has_ii_line f (Py.rstrip s) = has_ii_line f s.
Proof.
  revert f. induction s as [|c r IH]; intros f; [done|].
  rewrite rstrip_cons, (has_ii_line_cons f c r), prefix_ii_cons.
  rewrite <- !IH, <- (prefix_i_rstrip r).
  destruct (Py.rstrip r) as [|c' r'] eqn:E.
  - cbn [has_ii_line String.prefix]. rewrite !andb_false_r.
    destruct (Py.isspace c) eqn:Hc; [by destruct (Ascii.eqb c Py.nl_char)|].
    unfold Py.str1.
    rewrite has_ii_line_cons, prefix_ii_cons. cbn [has_ii_line String.prefix].
    rewrite !andb_false_r. by destruct (Ascii.eqb c Py.nl_char), (Py.isspace c).
  - by rewrite has_ii_line_cons, prefix_ii_cons.
Qed.

Lemma existsb_ii_line s :
  existsb ii_line (Py.split_on Py.nl_char s) = has_ii_line true s.
Proof.
  rewrite has_ii_line_split.
  destruct (split_on_nonempty Py.nl_char s) as (t & ts & ->).
  cbn [existsb andb]. by rewrite ii_line_lstrip.
Qed.

(** The lines of the stripped output tell as much as those of the output. *)
Lemma existsb_ii_line_strip s :
  existsb ii_line (Py.split_on Py.nl_char (Py.strip s))
  = existsb ii_line (Py.split_on Py.nl_char s).
Proof.
  rewrite !existsb_ii_line. unfold Py.strip.
  by rewrite has_ii_line_rstrip, has_ii_line_lstrip.
Qed.

(** ** [is_installed] *)

Lemma is_installed_spec env package st :
  let command := CmdStr ("dpkg -l " +:+ package) in
  let o := run_command_outcome env command true false st in
  is_installed env package st =
    (match o with
     | Completed returncode stdout _ =>
         Ret ((returncode =? 0)
              && existsb ii_line (Py.split_on Py.nl_char stdout))
     | PopenRaised (Exc _ _) => Ret false
     | PopenRaised e => Raise e
     end,
     emits (run_command_prelude command true false
            ++ Popen command true o
            :: run_command_epilogue command false o) st).
Proof.
  cbv zeta. unfold is_installed, bind. rewrite run_command_spec.
  destruct (run_command_outcome _ _ _ _ _) as [rc out err|[name msg| |code]];
    cbn [run_command_result popen_argument negb]; try reflexivity.
  unfold ret. by rewrite <- (existsb_ii_line_strip out).
Qed.

(** C10. [is_installed] runs [dpkg -l] on the package through the shell
    and answers [True] exactly when the query exits with status 0 and
    some line of its output starts, surrounding whitespace aside, with
    [ii]. A failed launch counts as not installed. A package that [dpkg]
    lists with the status [rc] is reported as not installed. *)
Theorem is_installed_iff_ii_line :
  forall env package st,
  exists o,
    launched (events_of (is_installed env package) st)
    = [(CmdStr ("dpkg -l " +:+ package), true)]
    /\ outcomes (events_of (is_installed env package) st) = [o]
    /\ fst (is_installed env package st) =
       match o with
       | Completed returncode stdout _ =>
           Ret ((returncode =? 0)
                && existsb ii_line (Py.split_on Py.nl_char stdout))
       | PopenRaised (Exc _ _) => Ret false
       | PopenRaised KeyboardInterrupt => Raise KeyboardInterrupt
       | PopenRaised (SystemExit code) => Raise (SystemExit code)
       end
    /\ (fst (is_installed env package st) = Ret true <->
        exists stdout stderr,
          o = Completed 0 stdout stderr
          /\ Exists (fun line => ii_line line = true)
                    (Py.split_on Py.nl_char stdout))
    /\ fst (is_installed env_removed "nginx" (initial_state [])) = Ret false.
Proof.
  intros env package st.
  set (command := CmdStr ("dpkg -l " +:+ package)).
  exists (run_command_outcome env command true false st).
  pose proof (is_installed_spec env package st) as Hspec. cbv zeta in Hspec.
  fold command in Hspec.
  assert (Hev : events_of (is_installed env package) st
                = run_command_prelude command true false
                  ++ Popen command true
                       (run_command_outcome env command true false st)
                  :: run_command_epilogue command false
                       (run_command_outcome env command true false st))
    by (eapply events_of_emits, Hspec).
  rewrite Hev, Hspec. cbn [fst].
  split; [|split; [|split; [|split]]].
  - rewrite launched_app, (launched_logs _ (prelude_is_log _ _ _)). cbn.
    by rewrite (launched_logs _ (epilogue_is_log _ _ _)).
  - rewrite outcomes_app, (outcomes_logs _ (prelude_is_log _ _ _)). cbn.
    by rewrite (outcomes_logs _ (epilogue_is_log _ _ _)).
  - by destruct (run_command_outcome _ _ _ _ _) as [|[]].
  - destruct (run_command_outcome _ _ _ _ _) as [rc out err|[name msg| |code]].
    + split.
      * intros [= H]. apply andb_prop in H as [Hrc Hex].
        apply Z.eqb_eq in Hrc. subst rc. exists out, err. split; [done|].
        apply List.Exists_exists. apply existsb_exists in Hex. exact Hex.
      * intros (out' & err' & [= -> -> ->] & Hex). f_equal.
        apply andb_true_intro. split; [done|].
        apply existsb_exists. apply List.Exists_exists in Hex. exact Hex.
    + split; [done|]. by intros (? & ? & ? & _).
    + split; [done|]. by intros (? & ? & ? & _).
    + split; [done|]. by intros (? & ? & ? & _).
  - vm_compute. reflexivity.
Qed.

(** ** The result dictionary *)

Lemma dict_set_fresh d k v :
  ~ In k (keys d) -> dict_set d k v = d ++ [(k, v)].
Proof.
  induction d as [|[k' v'] d IH]; [done|]. cbn. intros H.
  destruct (String.eqb k' k) eqn:E.
  - apply String.eqb_eq in E. tauto.
  - rewrite IH; tauto.
Qed.

Lemma dict_set_keys d k v k0 :
  In k0 (keys (dict_set d k v)) <-> In k0 (keys d) \/ k0 = k.
Proof.
  induction d as [|[k' v'] d IH]; cbn; [intuition|].
  destruct (String.eqb k' k) eqn:E; cbn.
  - apply String.eqb_eq in E. subst. intuition.
  - rewrite IH. intuition.
Qed.

Lemma dict_set_values d k :
  Forall (fun kv => snd kv = true) d ->
  Forall (fun kv => snd kv = true) (dict_set d k true).
Proof.
  induction 1 as [|[k' v'] d Hkv Hd IH]; cbn; [by repeat constructor|].
  destruct (String.eqb k' k); constructor; done.
Qed.

Lemma set_all_cons k l d :
  set_all d (k :: l) = set_all (dict_set d k true) l.
Proof. reflexivity. Qed.

Lemma set_all_keys l d k0 :
  In k0 (keys (set_all d l)) <-> In k0 (keys d) \/ In k0 l.
Proof.
  revert d. induction l as [|k l IH]; intros d; [cbn; intuition|].
  rewrite set_all_cons, IH, dict_set_keys. cbn. intuition.
Qed.

Lemma set_all_values l d :
  Forall (fun kv => snd kv = true) d ->
  Forall (fun kv => snd kv = true) (set_all d l).
Proof.
  revert d. induction l as [|k l IH]; intros d H; [done|].
  rewrite set_all_cons. by apply IH, dict_set_values.
Qed.

Lemma set_all_fresh l d :
  List.NoDup (keys d ++ l) ->
  set_all d l = d ++ map (fun k => (k, true)) l.
Proof.
  revert d. induction l as [|k l IH]; intros d H.
  - cbn. by rewrite app_nil_r.
  - rewrite set_all_cons. cbn [map]. rewrite dict_set_fresh.
    + rewrite IH.
      * by rewrite <- app_assoc.
      * unfold keys. rewrite map_app. cbn. by rewrite <- app_assoc.
    + apply List.NoDup_remove_2 in H. intros Hk. apply H.
      apply in_or_app. by left.
Qed.

Lemma set_all_app l1 l2 d : set_all d (l1 ++ l2) = set_all (set_all d l1) l2.
Proof. apply fold_left_app. Qed.

Lemma process_selections_expansion packages docker_pkgs selected_indices :
  process_selections packages docker_pkgs selected_indices
  = set_all [] (expansion packages docker_pkgs selected_indices).
Proof.
  unfold process_selections, expansion.
  generalize (@nil (string * bool)) as d. generalize 0 as start.
  induction packages as [|pkg packages IH]; intros start d; [done|].
  cbn [Py.enumerate fold_left flat_map fst snd].
  rewrite set_all_app, IH.
  destruct (bool_decide (start ∈ selected_indices)); [|done].
  by destruct (String.eqb pkg "docker").
Qed.

(** ** The selection parser *)

Lemma collect_indices_None env packages tokens selected :
  collect_indices env packages tokens selected = None <->
  List.Exists (bad_token env) tokens.
Proof.
  unfold bad_token.
  revert selected. induction tokens as [|num tokens IH]; intros selected.
  - cbn. split; [done|]. intros H. inversion H.
  - cbn [collect_indices].
    destruct (Py.int (int_max_str_digits env) (Py.strip num)) as [n|] eqn:E.
    + rewrite IH. split; [by right|].
      intros H. inversion H as [? ? H1|? ? H1]; subst; [congruence|done].
    + split; [|done]. intros _. by left.
Qed.


(** ** What [display_package_menu] returns *)

Lemma menu_result_accepted env room b packages docker_pkgs stdin selected :
  accepted_selection env room packages stdin = Some selected ->
  menu_result (display_package_menu env room b packages docker_pkgs stdin)
  = Ret (process_selections packages docker_pkgs selected).
Proof.
  revert stdin. induction room as [|room IH]; intros stdin; [done|].
  destruct stdin as [|[l|] stdin]; cbn [accepted_selection]; [done| |done].
  cbn [display_package_menu].
  destruct (selected_indices_of env packages (Py.lower (Py.strip l))) as [s|].
  - by intros [= ->].
  - intros H. specialize (IH _ H).
    by destruct (display_package_menu env room b packages docker_pkgs stdin)
      as [[evs r] rest'].
Qed.

Lemma menu_result_Ret env room b packages docker_pkgs stdin d :
  menu_result (display_package_menu env room b packages docker_pkgs stdin)
  = Ret d ->
  exists selected,
    accepted_selection env room packages stdin = Some selected
    /\ d = process_selections packages docker_pkgs selected.
Proof.
  revert stdin. induction room as [|room IH]; intros stdin; [done|].
  destruct stdin as [|[l|] stdin]; cbn [accepted_selection]; [done| |done].
  cbn [display_package_menu].
  destruct (selected_indices_of env packages (Py.lower (Py.strip l))) as [s|].
  - intros [= <-]. by exists s.
  - specialize (IH stdin).
    destruct (display_package_menu env room b packages docker_pkgs stdin)
      as [[evs r] rest']. exact IH.
Qed.

Lemma in_enumerate {A} (l : list A) start i x :
  In (i, x) (Py.enumerate l start) <->
  start <= i /\ l !! Z.to_nat (i - start) = Some x.
Proof.
  revert start. induction l as [|y l IH]; intros start; cbn.
  - split; [done|]. by intros [_ ?].
  - rewrite IH. split.
    + intros [[= <- <-]|[H1 H2]].
      * split; [lia|]. by rewrite Z.sub_diag.
      * split; [lia|]. replace (i - start) with (Z.succ (i - (start + 1))) by lia.
        rewrite Z2Nat.inj_succ by lia. done.
    + intros [H1 H2]. destruct (Z.eq_dec i start) as [->|Hne].
      * left. rewrite Z.sub_diag in H2. by simplify_eq/=.
      * right. split; [lia|].
        replace (i - start) with (Z.succ (i - (start + 1))) in H2 by lia.
        rewrite Z2Nat.inj_succ in H2 by lia. done.
Qed.

Lemma in_expansion packages docker_pkgs selected k :
  In k (expansion packages docker_pkgs selected) <->
  exists i pkg,
    0 <= i /\ packages !! Z.to_nat i = Some pkg /\ i ∈ selected
    /\ if String.eqb pkg "docker" then In k docker_pkgs else k = pkg.
Proof.
  unfold expansion. rewrite in_flat_map. split.
  - intros [[i pkg] [Hin Hk]]. apply in_enumerate in Hin as [H0 Hl].
    rewrite Z.sub_0_r in Hl. cbn [fst snd] in Hk.
    destruct (bool_decide_reflect (i ∈ selected)) as [Hi|Hi]; [|done].
    exists i, pkg. repeat split; try done.
    destruct (String.eqb pkg "docker"); [done|].
    destruct Hk as [<-|[]]. done.
  - intros (i & pkg & H0 & Hl & Hi & Hk). exists (i, pkg). split.
    + apply in_enumerate. by rewrite Z.sub_0_r.
    + cbn [fst snd]. rewrite bool_decide_true by done.
      destruct (String.eqb pkg "docker"); [done|]. by left.
Qed.

Lemma process_selections_keys packages docker_pkgs selected k :
  In k (keys (process_selections packages docker_pkgs selected)) <->
  In k (expansion packages docker_pkgs selected).
Proof.
  rewrite process_selections_expansion, set_all_keys. cbn. tauto.
Qed.

Lemma process_selections_values packages docker_pkgs selected :
  Forall (fun kv => snd kv = true)
         (process_selections packages docker_pkgs selected).
Proof.
  rewrite process_selections_expansion. apply set_all_values. constructor.
Qed.

(** C9. Whatever the user types, the dictionary [display_package_menu]
    returns maps each of its keys to [True], has no key [docker], and
    takes its keys from the displayed list and from the Docker
    sub-packages. The list of sub-packages holds no [docker], as in both
    lists [install_packages] passes. *)
Theorem selection_result_invariant :
  forall env room self_docker_available packages docker_pkgs stdin d,
    ~ In "docker" docker_pkgs ->
    menu_result (display_package_menu env room self_docker_available packages
                   docker_pkgs stdin) = Ret d ->
    Forall (fun kv => snd kv = true) d
    /\ ~ In "docker" (keys d)
    /\ (forall k, In k (keys d) -> In k packages \/ In k docker_pkgs).
Proof.
  intros env room b packages docker_pkgs stdin d Hdocker Hret.
  apply menu_result_Ret in Hret as (selected & _ & ->).
  split; [apply process_selections_values|]. split.
  - rewrite process_selections_keys, in_expansion.
    intros (i & pkg & _ & _ & _ & Hk).
    destruct (String.eqb pkg "docker") eqn:E; [done|].
    subst pkg. by rewrite String.eqb_refl in E.
  - intros k. rewrite process_selections_keys, in_expansion.
    intros (i & pkg & _ & Hl & _ & Hk).
    destruct (String.eqb pkg "docker"); [by right|].
    left. subst k. apply list_elem_of_In. by eapply list_elem_of_lookup_2.
Qed.

Lemma selection_result_invariant_witness :
  ~ In "docker" (candidate_docker_pkgs true)
  /\ menu_result (display_package_menu env_failing
                    (recursion_room env_failing) true (candidate_pkgs true)
                    (candidate_docker_pkgs true)
                    [Line "x"; Line " 6, 99 ,11"])
     = Ret [("containerd.io", true); ("docker-buildx-plugin", true);
            ("docker-ce", true); ("docker-ce-cli", true);
            ("docker-compose-plugin", true); ("nodejs", true)]
  /\ ~ In "docker"
       (keys [("containerd.io", true); ("docker-buildx-plugin", true);
              ("docker-ce", true); ("docker-ce-cli", true);
              ("docker-compose-plugin", true); ("nodejs", true)]).
Proof.
  assert (H1 : ~ In "docker" (candidate_docker_pkgs true))
    by (cbn; intuition discriminate).
  assert (H2 : menu_result (display_package_menu env_failing
                              (recursion_room env_failing) true
                              (candidate_pkgs true) (candidate_docker_pkgs true)
                              [Line "x"; Line " 6, 99 ,11"])
               = Ret [("containerd.io", true); ("docker-buildx-plugin", true);
                      ("docker-ce", true); ("docker-ce-cli", true);
                      ("docker-compose-plugin", true); ("nodejs", true)])
    by (vm_compute; reflexivity).
  split; [exact H1|]. split; [exact H2|].
  exact (proj1 (proj2 (selection_result_invariant env_failing
                         (recursion_room env_failing) true
                         (candidate_pkgs true) (candidate_docker_pkgs true)
                         [Line "x"; Line " 6, 99 ,11"] _ H1 H2))).
Defined.

(** ** The Docker entry *)

Lemma enumerate_app {A} (l1 l2 : list A) start :
  Py.enumerate (l1 ++ l2) start
  = Py.enumerate l1 start ++ Py.enumerate l2 (start + Z.of_nat (length l1)).
Proof.
  revert start. induction l1 as [|x l1 IH]; intros start.
  - cbn. by rewrite Z.add_0_r.
  - cbn [app Py.enumerate length]. rewrite IH. do 3 f_equal. lia.
Qed.

(** [expansion], for a numbering that starts anywhere. *)
Lemma expansion_picked l docker_pkgs selected start :
  ~ In "docker" l ->
  flat_map
    (fun ip : Z * string =>
       if bool_decide (fst ip ∈ selected) then
         if String.eqb (snd ip) "docker" then docker_pkgs else [snd ip]
       else [])
    (Py.enumerate l start)
  = picked l start selected.
Proof.
  unfold picked. revert start.
  induction l as [|pkg l IH]; intros start Hl; [done|].
  cbn [Py.enumerate flat_map fst snd]. rewrite filter_cons. cbn [fst].
  rewrite IH by (intros ?; apply Hl; by right).
  destruct (String.eqb pkg "docker") eqn:E.
  { apply String.eqb_eq in E. subst. exfalso. apply Hl. by left. }
  destruct (decide (start ∈ selected)) as [Hs|Hs].
  - by rewrite bool_decide_true.
  - by rewrite bool_decide_false.
Qed.

Lemma expansion_sublist packages docker_pkgs selected :
  sublist (expansion packages docker_pkgs selected)
          (full_expansion packages docker_pkgs).
Proof.
  unfold expansion, full_expansion. generalize 0 as start.
  induction packages as [|pkg packages IH]; intros start; [done|].
  cbn [Py.enumerate flat_map fst snd]. apply sublist_app; [|apply IH].
  destruct (bool_decide (start ∈ selected)); [done|apply sublist_nil_l].
Qed.

Lemma process_selections_NoDup packages docker_pkgs selected :
  List.NoDup (full_expansion packages docker_pkgs) ->
  process_selections packages docker_pkgs selected
  = map (fun k => (k, true)) (expansion packages docker_pkgs selected).
Proof.
  intros H. rewrite process_selections_expansion, set_all_fresh; [done|].
  cbn. apply NoDup_ListNoDup.
  eapply sublist_NoDup; [by apply NoDup_ListNoDup|apply expansion_sublist].
Qed.

Lemma keys_map_true l : keys (map (fun k => (k, true)) l) = l.
Proof. unfold keys. rewrite map_map. apply map_id. Qed.

Lemma candidate_pkgs_available :
  candidate_pkgs true
  = ["1password-cli"; "bitwarden-cli"; "certbot"; "cmake"; "cockpit"]
    ++ ["docker"]
    ++ ["fail2ban"; "fdupes"; "ffmpeg"; "nginx"; "nodejs"; "npm"; "nvm";
        "pandoc"; "plex"; "rclone"; "timeshift"].
Proof. vm_compute. reflexivity. Qed.

Lemma full_expansion_NoDup available :
  List.NoDup (full_expansion (candidate_pkgs available)
                (candidate_docker_pkgs available)).
Proof.
  apply NoDup_ListNoDup.
  destruct available; apply (bool_decide_unpack _); vm_compute; exact I.
Qed.

(** C3. When the probe finds Docker, the menu shows [docker] as its sixth
    entry; when the menu accepts a selection that holds that entry, within
    the room the interpreter leaves for showing the menu again, it
    returns a dictionary whose keys are the selected entries before it,
    then the five Docker sub-packages and nothing else in its place, then
    the selected entries after it, each mapped to [True]. *)
Theorem docker_umbrella_expansion :
  forall env room self_docker_available apt_cache_output stdin selected,
    docker_probe apt_cache_output = true ->
    accepted_selection env room
      (candidate_pkgs (docker_probe apt_cache_output)) stdin = Some selected ->
    5 ∈ selected ->
    candidate_pkgs (docker_probe apt_cache_output) !! 5%nat = Some "docker"
    /\ exists d,
        menu_result
          (display_package_menu env room self_docker_available
             (candidate_pkgs (docker_probe apt_cache_output))
             (candidate_docker_pkgs (docker_probe apt_cache_output)) stdin)
        = Ret d
        /\ keys d
           = picked ["1password-cli"; "bitwarden-cli"; "certbot"; "cmake";
                     "cockpit"] 0 selected
             ++ ["containerd.io"; "docker-buildx-plugin"; "docker-ce";
                 "docker-ce-cli"; "docker-compose-plugin"]
             ++ picked ["fail2ban"; "fdupes"; "ffmpeg"; "nginx"; "nodejs";
                        "npm"; "nvm"; "pandoc"; "plex"; "rclone"; "timeshift"]
                  6 selected
        /\ Forall (fun kv => snd kv = true) d.
Proof.
  intros env room b out stdin selected -> Hacc H5.
  split; [by vm_compute|].
  eexists. split; [by apply menu_result_accepted|].
  split; [|apply process_selections_values].
  rewrite process_selections_NoDup by apply full_expansion_NoDup.
  rewrite keys_map_true. unfold expansion.
  rewrite candidate_pkgs_available, !enumerate_app, !flat_map_app.
  rewrite (expansion_picked ["1password-cli"; "bitwarden-cli"; "certbot";
                              "cmake"; "cockpit"])
    by (cbn; intuition discriminate).
  rewrite (expansion_picked ["fail2ban"; "fdupes"; "ffmpeg"; "nginx"; "nodejs";
                              "npm"; "nvm"; "pandoc"; "plex"; "rclone";
                              "timeshift"])
    by (cbn; intuition discriminate).
  f_equal. cbn. rewrite bool_decide_true by done. by rewrite app_nil_r.
Qed.

Lemma docker_umbrella_expansion_witness :
  docker_probe ("docker-ce:" +:+ Py.nl +:+ "  Candidate: 5:27.3.1") = true
  /\ accepted_selection env_failing (recursion_room env_failing)
       (candidate_pkgs
          (docker_probe ("docker-ce:" +:+ Py.nl +:+ "  Candidate: 5:27.3.1")))
       [Line "x"; Line " 6, 99 ,11"] = Some ({[5]} ∪ {[10]})
  /\ 5 ∈ ({[5]} ∪ {[10]} : gset Z)
  /\ candidate_pkgs
       (docker_probe ("docker-ce:" +:+ Py.nl +:+ "  Candidate: 5:27.3.1"))
     !! 5%nat = Some "docker".
Proof.
  assert (H1 : docker_probe ("docker-ce:" +:+ Py.nl +:+ "  Candidate: 5:27.3.1")
               = true) by reflexivity.
  assert (H2 : accepted_selection env_failing (recursion_room env_failing)
                 (candidate_pkgs
                    (docker_probe
                       ("docker-ce:" +:+ Py.nl +:+ "  Candidate: 5:27.3.1")))
                 [Line "x"; Line " 6, 99 ,11"] = Some ({[5]} ∪ {[10]}))
    by (vm_compute; reflexivity).
  assert (H3 : 5 ∈ ({[5]} ∪ {[10]} : gset Z))
    by (apply (bool_decide_unpack _); vm_compute; exact I).
  split; [exact H1|]. split; [exact H2|]. split; [exact H3|].
  exact (proj1 (docker_umbrella_expansion env_failing _ true _ _ _ H1 H2 H3)).
Defined.

(** ** Accepting and rejecting a line *)

Lemma display_line env room b packages docker_pkgs l rest :
  display_package_menu env (S room) b packages docker_pkgs (Line l :: rest) =
  match selected_indices_of env packages (Py.lower (Py.strip l)) with
  | None =>
      (menu_lines packages
       ++ [Prompted prompt (Some (Line l));
           Printed "Invalid selection format. Please use numbers separated by commas."]
       ++ menu_events (display_package_menu env room b packages docker_pkgs
                         rest),
       menu_result (display_package_menu env room b packages docker_pkgs rest),
       menu_rest (display_package_menu env room b packages docker_pkgs rest))
  | Some selected =>
      (menu_lines packages ++ [Prompted prompt (Some (Line l))]
       ++ confirmation_lines (process_selections packages docker_pkgs selected),
       Ret (process_selections packages docker_pkgs selected), rest)
  end.
Proof.
  cbn [display_package_menu].
  destruct (selected_indices_of env packages (Py.lower (Py.strip l))); [done|].
  by destruct (display_package_menu env room b packages docker_pkgs rest)
    as [[? ?] ?].
Qed.

Lemma selected_indices_of_numbers env packages selection :
  selection <> "all" -> selection <> "none" ->
  selected_indices_of env packages selection
  = collect_indices env packages (tokens_of selection) ∅.
Proof.
  intros Hall Hnone. unfold selected_indices_of.
  destruct (String.eqb_spec selection "all"); [done|].
  by destruct (String.eqb_spec selection "none").
Qed.







(** ** The three forms of a selection *)









(** ** Composing computations *)

Lemma emits_only_ret {A} P (a : A) : emits_only P (ret a).
Proof. intros st. split; [done|]. exists []. by rewrite app_nil_r. Qed.

Lemma emits_only_raise {A} P e : emits_only P (@raise A e).
Proof. intros st. split; [done|]. exists []. by rewrite app_nil_r. Qed.

Lemma emits_only_bind {A B} P (m : M A) (k : A -> M B) :
  emits_only P m -> (forall a, emits_only P (k a)) -> emits_only P (bind m k).
Proof.
  intros Hm Hk st. unfold bind.
  destruct (Hm st) as (Hf & evs & Hh & HP).
  destruct (m st) as [[a|e] st1]; cbn [snd] in *.
  - destruct (Hk a st1) as (Hf' & evs' & Hh' & HP').
    split; [congruence|]. exists (evs ++ evs').
    rewrite Hh', Hh, app_assoc, forallb_app, HP, HP'. done.
  - split; [done|]. by exists evs.
Qed.

Lemma emits_only_log P lvl msg :
  P (Logged lvl msg) = true -> emits_only P (log lvl msg).
Proof.
  intros HP st. split; [done|]. exists [Logged lvl msg]. cbn. by rewrite HP.
Qed.

Lemma emits_only_when P b m : emits_only P m -> emits_only P (when b m).
Proof. destruct b; [done|]. intros _. apply emits_only_ret. Qed.

Lemma emits_only_for_each {A} P (l : list A) body :
  (forall x, emits_only P (body x)) -> emits_only P (for_each l body).
Proof.
  intros Hb. induction l as [|x l IH]; [apply emits_only_ret|].
  cbn [for_each]. by apply emits_only_bind.
Qed.

Lemma emits_only_weaken {A} (P Q : event -> bool) (m : M A) :
  (forall ev, P ev = true -> Q ev = true) -> emits_only P m -> emits_only Q m.
Proof.
  intros HPQ Hm st. destruct (Hm st) as (Hf & evs & Hh & HP).
  split; [done|]. exists evs. split; [done|].
  rewrite forallb_forall in HP |- *. auto.
Qed.

Lemma forallb_logs P evs :
  (forall lvl msg, P (Logged lvl msg) = true) ->
  forallb is_log evs = true -> forallb P evs = true.
Proof.
  intros HP. induction evs as [|[] evs IH]; cbn; try done.
  intros H. by rewrite HP, IH.
Qed.

Lemma emits_only_run_command P env command shell check :
  (forall lvl msg, P (Logged lvl msg) = true) ->
  (forall o, P (Popen (popen_argument command shell) shell o) = true) ->
  emits_only P (run_command env command shell check).
Proof.
  intros Hlog Hpopen st. rewrite run_command_spec. cbn [snd].
  split; [done|]. eexists. split; [reflexivity|].
  rewrite forallb_app. cbn [forallb].
  rewrite Hpopen, (forallb_logs _ _ Hlog (prelude_is_log _ _ _)).
  by rewrite (forallb_logs _ _ Hlog (epilogue_is_log _ _ _)).
Qed.

(** ** What each part of the run does *)

Ltac split_triples :=
  repeat match goal with
         | x : (_ * _ * _)%type |- _ => destruct x as [[? ?] ?]
         end.

Ltac emits_only_step :=
  first
    [ apply emits_only_ret
    | apply emits_only_raise
    | apply emits_only_log; reflexivity
    | apply emits_only_run_command; [reflexivity|intros; reflexivity]
    | apply emits_only_when
    | apply emits_only_bind; [|intros ?; split_triples] ].

Lemma emits_only_probe env :
  emits_only probe_event
    (run_command env (CmdStr "apt-cache policy docker-ce") true false).
Proof. emits_only_step. Qed.

Lemma emits_only_path_exists P env path :
  (forall b, P (PathChecked path b) = true) ->
  emits_only P (path_exists env path).
Proof.
  intros HP st. split; [done|]. eexists. split; [reflexivity|].
  cbn. by rewrite HP.
Qed.

Lemma emits_only_write_file P env path data :
  (forall r, P (Wrote path data r) = true) ->
  emits_only P (write_file env path data).
Proof.
  intros HP st. split; [done|]. eexists. split; [reflexivity|].
  cbn. by rewrite HP.
Qed.

Lemma emits_only_setup_docker_repository env :
  emits_only repository_event (setup_docker_repository env).
Proof.
  unfold setup_docker_repository.
  emits_only_step; [emits_only_step|].
  emits_only_step; [emits_only_step|].
  emits_only_step; [by apply emits_only_path_exists|].
  emits_only_step; [repeat emits_only_step|].
  emits_only_step; [emits_only_step|].
  emits_only_step; [emits_only_step|].
  emits_only_step; [emits_only_step|].
  emits_only_step; [by apply emits_only_write_file|].
  repeat emits_only_step.
Qed.

Lemma emits_only_is_installed env package :
  emits_only install_event (is_installed env package).
Proof. unfold is_installed. repeat emits_only_step. Qed.

Lemma emits_only_sh env cmd : emits_only install_event (sh env cmd).
Proof. unfold sh. repeat emits_only_step. Qed.

Ltac install_step :=
  first
    [ apply emits_only_sh
    | apply emits_only_is_installed
    | emits_only_step ].

Lemma emits_only_install_one env pkg :
  emits_only install_event (install_one env pkg).
Proof.
  unfold install_one, install_plex, install_bitwarden_cli,
    install_1password_cli, install_nvm.
  repeat match goal with
         | |- context [if ?b then _ else _] => destruct b
         end;
    repeat install_step;
    repeat match goal with
           | |- context [if negb ?b then _ else _] => destruct b; cbn [negb]
           end;
    repeat install_step.
Qed.

Lemma forallb_menu_lines packages :
  forallb menu_event (menu_lines packages) = true.
Proof.
  unfold menu_lines. rewrite !forallb_app. cbn.
  rewrite andb_true_r. generalize 1 as start.
  induction packages as [|pkg packages IH]; intros start; [done|].
  cbn. apply IH.
Qed.

Lemma forallb_confirmation_lines d :
  forallb menu_event (confirmation_lines d) = true.
Proof.
  unfold confirmation_lines. destruct (selected_keys d) as [|k ks]; [done|].
  cbn [forallb menu_event andb].
  change (forallb menu_event (map (fun pkg => Printed ("- " +:+ pkg)) (k :: ks))
          = true).
  by induction (k :: ks).
Qed.

Lemma forallb_display env room b packages docker_pkgs stdin :
  forallb menu_event
    (menu_events (display_package_menu env room b packages docker_pkgs stdin))
  = true.
Proof.
  revert stdin. induction room as [|room IH]; intros stdin; [done|].
  destruct stdin as [|[l|] stdin].
  - cbn [display_package_menu menu_events fst].
    by rewrite forallb_app, forallb_menu_lines.
  - rewrite display_line.
    destruct (selected_indices_of env packages (Py.lower (Py.strip l)));
      unfold menu_events at 1; cbn [fst];
      rewrite !forallb_app, forallb_menu_lines; cbn [forallb menu_event andb].
    + by rewrite forallb_confirmation_lines.
    + apply IH.
  - cbn [display_package_menu menu_events fst].
    by rewrite forallb_app, forallb_menu_lines.
Qed.

Lemma emits_only_call_display env packages docker_pkgs :
  emits_only menu_event (call_display_package_menu env packages docker_pkgs).
Proof.
  intros st. unfold call_display_package_menu.
  pose proof (forallb_display env (recursion_room env) (docker_available st)
                packages docker_pkgs (stdin st)) as H.
  destruct (display_package_menu env (recursion_room env) (docker_available st)
              packages docker_pkgs (stdin st)) as [[evs r] rest].
  split; [done|]. by exists evs.
Qed.

Lemma emits_only_finalize_script : emits_only is_log finalize_script.
Proof.
  unfold finalize_script.
  emits_only_step; [emits_only_step|].
  emits_only_step; [emits_only_step|].
  intros st. cbv beta.
  match goal with
  | |- context [if _ then ?A else ?B] =>
      assert (H1 : emits_only is_log A)
        by (unfold sys_exit; repeat emits_only_step);
      assert (H2 : emits_only is_log B)
        by (unfold sys_exit; repeat emits_only_step)
  end.
  generalize (H1 st) (H2 st). by destruct (error_flag st).
Qed.

Lemma emits_only_set_docker_available P b :
  emits_only P (fun st => (Ret tt, set_docker_available b st)).
Proof. intros st. split; [done|]. exists []. cbn. by rewrite app_nil_r. Qed.

Lemma emits_only_any {A} P (m : M A) : emits_only P m -> emits_only any_event m.
Proof. apply emits_only_weaken. done. Qed.

Lemma emits_only_install_packages env :
  emits_only any_event (install_packages env).
Proof.
  unfold install_packages.
  apply emits_only_bind; [apply emits_only_set_docker_available|intros _].
  apply emits_only_bind; [apply (emits_only_any _ _ (emits_only_probe env))|].
  intros [[? out] ?].
  apply emits_only_bind;
    [apply emits_only_when, emits_only_set_docker_available|intros _].
  apply emits_only_bind;
    [apply (emits_only_any _ _ (emits_only_setup_docker_repository env))|].
  intros _.
  apply emits_only_bind; [by apply emits_only_log|intros _].
  apply emits_only_bind;
    [apply (emits_only_any _ _ (emits_only_call_display env _ _))|intros d].
  apply emits_only_bind; [by apply emits_only_log|intros _].
  apply emits_only_for_each. intros pkg.
  apply (emits_only_any _ _ (emits_only_install_one env pkg)).
Qed.

(** ** The exit status *)

Lemma finalize_script_exit st :
  fst (finalize_script st)
  = Raise (SystemExit (if error_flag st then 1 else 0)).
Proof.
  unfold finalize_script, bind, log, sys_exit, raise. cbn.
  by destruct (error_flag st).
Qed.

Lemma run_spec env stdin :
  run env (initial_state stdin) =
  match install_packages env (started stdin) with
  | (Ret _, st) => finalize_script st
  | (Raise (Exc name msg), st) =>
      (Raise (SystemExit 1),
       emit (Logged ERROR fmt["Error in main execution: "; msg])
            (set_error_flag true st))
  | (Raise e, st) => (Raise e, st)
  end.
Proof.
  unfold run, try_except_Exception.
  change ((log INFO fmt["Starting optional packages setup at "; Clock] ;;
           log INFO fmt[blue "Starting optional packages setup..."] ;;
           install_packages env ;; finalize_script) (initial_state stdin))
    with (bind (install_packages env) (fun _ => finalize_script)
            (started stdin)).
  unfold bind at 1.
  destruct (install_packages env (started stdin)) as [[[]|[name msg| |code]] st];
    try reflexivity.
  pose proof (finalize_script_exit st) as H.
  destruct (finalize_script st) as [r st']. cbn in H. by subst r.
Qed.

(** C5, as stated, fails: an interrupt from the keyboard at the prompt
    reaches the top-level run as a [KeyboardInterrupt], which its handler
    does not catch; the error flag stays unset and no exit status is set
    by the script. *)
Lemma keyboard_interrupt_leaves_flag_unset :
  fst (run env_failing (initial_state [CtrlC])) = Raise KeyboardInterrupt
  /\ fst (main env_failing [CtrlC]) = Interrupted
  /\ error_flag (snd (main env_failing [CtrlC])) = false.
Proof. repeat split; vm_compute; reflexivity. Qed.

Lemma started_flag stdin : error_flag (started stdin) = false.
Proof. reflexivity. Qed.

(** C5, amended. When [install_packages] returns, the program exits with
    status 0 and the error flag unset. When an instance of [Exception]
    reaches the top-level run, the error flag is set and the program
    exits with status 1. A [KeyboardInterrupt] is not caught: the flag
    stays unset and the interpreter ends as interrupted. In every state,
    [finalize_script] exits with status 1 if the error flag is set and
    with status 0 otherwise. *)
Theorem exit_status :
  forall env stdin,
    match fst (install_packages env (started stdin)) with
    | Ret _ =>
        fst (main env stdin) = Exited 0
        /\ error_flag (snd (main env stdin)) = false
    | Raise (Exc _ _) =>
        fst (main env stdin) = Exited 1
        /\ error_flag (snd (main env stdin)) = true
    | Raise KeyboardInterrupt =>
        fst (main env stdin) = Interrupted
        /\ error_flag (snd (main env stdin)) = false
    | Raise (SystemExit code) =>
        fst (main env stdin) = Exited code
        /\ error_flag (snd (main env stdin)) = false
    end
    /\ forall st,
        fst (finalize_script st)
        = Raise (SystemExit (if error_flag st then 1 else 0)).
Proof.
  intros env stdin. split; [|apply finalize_script_exit].
  unfold main. rewrite run_spec.
  destruct (emits_only_install_packages env (started stdin)) as [Hflag _].
  rewrite started_flag in Hflag.
  destruct (install_packages env (started stdin))
    as [[[]|[name msg| |code]] st]; cbn [fst snd] in *; try done.
  pose proof (finalize_script_exit st) as Hexit.
  destruct (emits_only_finalize_script st) as [Hflag' _].
  rewrite Hflag in *.
  destruct (finalize_script st) as [r st']; cbn [fst snd] in *.
  subst r. cbn [fst snd]. split; [done|exact Hflag'].
Qed.

(** ** The phases of a run *)

Lemma history_events_of {A} P (m : M A) st :
  emits_only P m -> history (snd (m st)) = history st ++ events_of m st.
Proof.
  intros Hm. destruct (Hm st) as (_ & evs & Hh & _).
  unfold events_of. by rewrite Hh, drop_history.
Qed.

Lemma forallb_events_of {A} P (m : M A) st :
  emits_only P m -> forallb P (events_of m st) = true.
Proof.
  intros Hm. destruct (Hm st) as (_ & evs & Hh & HP).
  unfold events_of. by rewrite Hh, drop_history.
Qed.

Lemma emits_only_menu_step env available :
  emits_only menu_event (menu_step env available).
Proof.
  unfold menu_step. apply emits_only_bind; [by apply emits_only_log|intros _].
  apply emits_only_call_display.
Qed.

Lemma emits_only_install_step env d :
  emits_only install_event (install_step env d).
Proof.
  unfold install_step. apply emits_only_bind; [by apply emits_only_log|intros _].
  apply emits_only_for_each, emits_only_install_one.
Qed.

(** [install_packages], step by step. *)
Lemma install_packages_steps env st :
  install_packages env st =
  match probe_step env (set_docker_available false st) with
  | (Raise e, st1) => (Raise e, st1)
  | (Ret (_, apt_cache_output, _), st1) =>
      let available := docker_probe apt_cache_output in
      match setup_docker_repository env
              (if available then set_docker_available true st1 else st1) with
      | (Raise e, st2) => (Raise e, st2)
      | (Ret _, st2) =>
          match menu_step env available st2 with
          | (Raise e, st3) => (Raise e, st3)
          | (Ret d, st3) => install_step env d st3
          end
      end
  end.
Proof.
  unfold install_packages, probe_step, menu_step, install_step.
  unfold bind at 1 2. cbn [fst snd].
  destruct (run_command env (CmdStr "apt-cache policy docker-ce") true false
              (set_docker_available false st)) as [[[[rc out] err]|e] st1];
    [|done].
  cbv zeta. unfold bind at 1.
  destruct (docker_probe out); cbn [when ret];
    unfold bind at 1;
    match goal with
    | |- context [setup_docker_repository env ?s] =>
        destruct (setup_docker_repository env s) as [[[]|e] st2]
    end; try done.
Qed.

Lemma history_if_set_docker_available (b : bool) st :
  history (if b then set_docker_available true st else st) = history st.
Proof. by destruct b. Qed.

Ltac run_step m st H :=
  let Hh := fresh "Hh" in
  let Hp := fresh "Hp" in
  pose proof (history_events_of _ m st H) as Hh;
  pose proof (forallb_events_of _ m st H) as Hp;
  let e := fresh "evs" in
  set (e := events_of m st) in *; clearbody e;
  destruct (m st) as [[?|?] ?]; cbn [fst snd] in *.

(** C6, as stated, fails: when the sources list cannot be written the
    repository set-up raises, and the run ends there with status 1. The
    menu is never shown, the waiting line of input is left unread,
    nothing is installed and no summary, of success or of failure, is
    logged. *)
Lemma write_failure_skips_later_phases :
  map fst (phases env_unprivileged [Line "all"]) = [Probe; Repository]
  /\ fst (main env_unprivileged [Line "all"]) = Exited 1
  /\ prompts (history (snd (main env_unprivileged [Line "all"]))) = 0%nat
  /\ stdin (snd (main env_unprivileged [Line "all"])) = [Line "all"]
  /\ forallb no_verdict (history (snd (main env_unprivileged [Line "all"])))
     = true.
Proof. repeat split; vm_compute; reflexivity. Qed.

(** C6, amended. The phases of a run come in the order probe,
    repository, menu, installation, summary, each from the state the one
    before has left, and stop at the first that raises. The history of
    the run is the two opening records, then the events of the phases
    gone through, in turn, then the record of the error when an instance
    of [Exception] has cut the run short, and nothing else. Every phase
    is gone through exactly when [install_packages] returns. *)
Theorem phases_in_order :
  forall env stdin,
    (exists n, map fst (phases env stdin) = firstn n all_phases)
    /\ history (snd (main env stdin))
       = history (started stdin)
         ++ concat (map snd (phases env stdin))
         ++ match fst (install_packages env (started stdin)) with
            | Raise (Exc _ msg) =>
                [Logged ERROR fmt["Error in main execution: "; msg]]
            | _ => []
            end
    /\ (fst (install_packages env (started stdin)) = Ret tt
        <-> map fst (phases env stdin) = all_phases).
Proof.
  intros env stdin. unfold main, phases. cbv zeta.
  rewrite run_spec, install_packages_steps.
  set (st0 := set_docker_available false (started stdin)).
  assert (H0 : history st0 = history (started stdin)) by reflexivity.
  run_step (probe_step env) st0 (emits_only_probe env);
    [destruct a as [[rc out] err]|];
    [set (st1 := if docker_probe out then set_docker_available true s else s);
     assert (H1 : history st1 = history s)
       by apply history_if_set_docker_available;
     run_step (setup_docker_repository env) st1
       (emits_only_setup_docker_repository env);
     [run_step (menu_step env (docker_probe out)) s0
        (emits_only_menu_step env (docker_probe out));
      [run_step (install_step env a0) s1 (emits_only_install_step env a0);
       [pose proof (finalize_script_exit s2) as Hexit;
        run_step finalize_script s2 emits_only_finalize_script|]|]|]|].
  all: repeat match goal with r : raised |- _ => destruct r end.
  all: repeat match goal with u : unit |- _ => destruct u end.
  all: try discriminate.
  all: (split; [first [by exists 1%nat|by exists 2%nat|by exists 3%nat
                      |by exists 4%nat|by exists 5%nat]|]).
  all: (split; [|by split]).
  all: cbn [map snd fst concat history emit set_error_flag];
    repeat match goal with H : history _ = _ |- _ => rewrite H; clear H end;
    by rewrite ?app_nil_r, <- ?app_assoc.
Qed.



(** ** The summary *)

Lemma no_verdict_run_command env command shell check :
  emits_only no_verdict (run_command env command shell check).
Proof.
  intros st. rewrite run_command_spec. cbn [snd].
  split; [done|]. eexists. split; [reflexivity|].
  rewrite forallb_app. cbn [forallb no_verdict]. apply andb_true_intro. split.
  - by destruct command, shell.
  - destruct (run_command_outcome env command shell check st)
      as [rc out err|[name msg| |code]]; try done.
    cbn [run_command_epilogue]. unfold completion_records, failure_records.
    by destruct (nonempty out), (nonempty err), (check && negb (rc =? 0)).
Qed.

Ltac no_verdict_step :=
  first
    [ apply emits_only_ret
    | apply emits_only_raise
    | apply emits_only_log; reflexivity
    | apply no_verdict_run_command
    | apply emits_only_when
    | apply emits_only_path_exists; intros; reflexivity
    | apply emits_only_write_file; intros; reflexivity
    | apply emits_only_set_docker_available
    | apply emits_only_bind; [|intros ?; split_triples] ].

Lemma no_verdict_setup_docker_repository env :
  emits_only no_verdict (setup_docker_repository env).
Proof. unfold setup_docker_repository. repeat no_verdict_step. Qed.

Lemma no_verdict_install_one env pkg : emits_only no_verdict (install_one env pkg).
Proof.
  unfold install_one, install_plex, install_bitwarden_cli,
    install_1password_cli, install_nvm, is_installed, sh.
  repeat match goal with
         | |- context [if ?b then _ else _] => destruct b
         end;
    repeat no_verdict_step;
    repeat match goal with
           | |- context [if negb ?b then _ else _] => destruct b; cbn [negb]
           end;
    repeat no_verdict_step.
Qed.

Section Interactive.
Variable P : event -> bool.
Hypothesis P_Printed : forall s, P (Printed s) = true.
Hypothesis P_Prompted : forall s r, P (Prompted s r) = true.

Lemma interactive_menu_lines packages : forallb P (menu_lines packages) = true.
Proof using P_Printed.
  unfold menu_lines. rewrite !forallb_app. cbn [forallb].
  rewrite !P_Printed. cbn [andb]. rewrite andb_true_r.
  generalize 1 as start.
  induction packages as [|pkg packages IH]; intros start; [done|].
  cbn. rewrite P_Printed. apply IH.
Qed.

Lemma interactive_confirmation_lines d :
  forallb P (confirmation_lines d) = true.
Proof using P_Printed.
  unfold confirmation_lines. destruct (selected_keys d) as [|k ks].
  - cbn. by rewrite !P_Printed.
  - cbn [forallb]. rewrite P_Printed. cbn [andb].
    change (forallb P (map (fun pkg => Printed ("- " +:+ pkg)) (k :: ks))
            = true).
    induction (k :: ks) as [|x l IH]; [done|].
    cbn. by rewrite P_Printed.
Qed.

Lemma interactive_display env room b packages docker_pkgs stdin :
  forallb P (menu_events (display_package_menu env room b packages docker_pkgs
                            stdin))
  = true.
Proof using P_Printed P_Prompted.
  revert stdin. induction room as [|room IH]; intros stdin; [done|].
  destruct stdin as [|[l|] stdin].
  - cbn [display_package_menu menu_events fst].
    rewrite forallb_app, interactive_menu_lines. cbn.
    by rewrite ?P_Prompted, ?P_Printed.
  - rewrite display_line.
    destruct (selected_indices_of env packages (Py.lower (Py.strip l)));
      unfold menu_events at 1; cbn [fst];
      rewrite !forallb_app, interactive_menu_lines; cbn [forallb andb];
      rewrite ?P_Prompted, ?P_Printed; cbn [andb].
    + by rewrite interactive_confirmation_lines.
    + apply IH.
  - cbn [display_package_menu menu_events fst].
    rewrite forallb_app, interactive_menu_lines. cbn.
    by rewrite ?P_Prompted, ?P_Printed.
Qed.

Lemma interactive_call_display env packages docker_pkgs :
  emits_only P (call_display_package_menu env packages docker_pkgs).
Proof using P_Printed P_Prompted.
  intros st. unfold call_display_package_menu.
  pose proof (interactive_display env (recursion_room env)
                (docker_available st) packages docker_pkgs (stdin st)) as H.
  destruct (display_package_menu env (recursion_room env) (docker_available st)
              packages docker_pkgs (stdin st)) as [[evs r] rest].
  split; [done|]. by exists evs.
Qed.
End Interactive.

Lemma no_verdict_install_packages env : emits_only no_verdict (install_packages env).
Proof.
  unfold install_packages.
  apply emits_only_bind; [apply emits_only_set_docker_available|intros _].
  apply emits_only_bind; [apply no_verdict_run_command|].
  intros [[? out] ?].
  apply emits_only_bind;
    [apply emits_only_when, emits_only_set_docker_available|intros _].
  apply emits_only_bind; [apply no_verdict_setup_docker_repository|intros _].
  apply emits_only_bind; [by apply emits_only_log|intros _].
  apply emits_only_bind; [by apply interactive_call_display|intros d].
  apply emits_only_bind; [by apply emits_only_log|intros _].
  apply emits_only_for_each. intros pkg. apply no_verdict_install_one.
Qed.

Lemma finalize_script_success st :
  error_flag st = false ->
  finalize_script st = (Raise (SystemExit 0), emits success_summary st).
Proof.
  intros Hflag. unfold finalize_script, bind, log, sys_exit, raise.
  cbn. rewrite Hflag. cbn. unfold emits, emit. cbn.
  by rewrite <- !app_assoc.
Qed.

Lemma no_verdict_In ev evs :
  forallb no_verdict evs = true -> no_verdict ev = false -> ~ In ev evs.
Proof.
  intros Hall Hev Hin.
  rewrite forallb_forall in Hall. specialize (Hall ev Hin). congruence.
Qed.

(** X2. Whatever the commands of a run return, its summary never reports
    an error: the error verdict of [finalize_script] is in no history.
    The success verdict is logged exactly when [install_packages]
    returns, and the history then ends with the four records of the
    success summary. *)
Theorem verdict_of_a_run :
  forall env stdin,
    ~ In error_verdict (history (snd (main env stdin)))
    /\ (In success_verdict (history (snd (main env stdin)))
        <-> fst (install_packages env (started stdin)) = Ret tt)
    /\ (fst (install_packages env (started stdin)) = Ret tt ->
        exists h,
          history (snd (main env stdin)) = h ++ success_summary
          /\ forallb no_verdict h = true).
Proof.
  intros env stdin. unfold main. rewrite run_spec.
  destruct (no_verdict_install_packages env (started stdin))
    as (Hflag & evs & Hhist & Hevs).
  rewrite started_flag in Hflag.
  assert (Hpre : forallb no_verdict (history (started stdin) ++ evs) = true)
    by (rewrite forallb_app, Hevs; reflexivity).
  rewrite <- Hhist in Hpre. clear Hhist Hevs evs.
  destruct (install_packages env (started stdin))
    as [[[]|[name msg| |code]] st]; cbn [fst snd] in *.
  - rewrite (finalize_script_success _ Hflag). cbn [snd fst].
    rewrite history_emits. split; [|split].
    + intros Hin. apply in_app_or in Hin as [Hin|Hin].
      * by apply (no_verdict_In _ _ Hpre) in Hin.
      * cbn in Hin. unfold error_verdict, success_verdict in Hin.
        repeat destruct Hin as [Hin|Hin]; try discriminate Hin; done.
    + split; [done|]. intros _. apply in_or_app. right.
      cbn. tauto.
    + intros _. by exists (history st).
  - cbn [snd]. split; [|split].
    + change (~ In error_verdict
                (history st
                 ++ [Logged ERROR fmt["Error in main execution: "; msg]])).
      intros Hin. apply in_app_or in Hin as [Hin|[Hin|[]]].
      * by apply (no_verdict_In _ _ Hpre) in Hin.
      * discriminate Hin.
    + split; [|discriminate].
      change (In success_verdict
                (history st
                 ++ [Logged ERROR fmt["Error in main execution: "; msg]])
              -> Raise (Exc name msg) = Ret tt).
      intros Hin. apply in_app_or in Hin as [Hin|[Hin|[]]].
      * by apply (no_verdict_In _ _ Hpre) in Hin.
      * discriminate Hin.
    + discriminate.
  - cbn [snd]. split; [|split].
    + by apply no_verdict_In.
    + split; [|discriminate]. intros Hin.
      by apply (no_verdict_In _ _ Hpre) in Hin.
    + discriminate.
  - cbn [snd]. split; [|split].
    + by apply no_verdict_In.
    + split; [|discriminate]. intros Hin.
      by apply (no_verdict_In _ _ Hpre) in Hin.
    + discriminate.
Qed.

(** ** The repository set-up *)

Lemma actions_app evs1 evs2 : actions (evs1 ++ evs2) = actions evs1 ++ actions evs2.
Proof. apply List.filter_app. Qed.

Lemma actions_logs evs : forallb is_log evs = true -> actions evs = [].
Proof.
  induction evs as [|ev evs IH]; [done|]. cbn.
  intros [Hev Hevs]%andb_prop. rewrite Hev. cbn. by apply IH.
Qed.

Lemma bind_runs {A B} (m : M A) (k : A -> M B) st r evs :
  runs m st r evs ->
  bind m k st = match r with
                | Ret a => k a (emits evs st)
                | Raise e => (Raise e, emits evs st)
                end.
Proof. unfold runs, bind. intros ->. by destruct r. Qed.

Lemma runs_log lvl msg st : runs (log lvl msg) st (Ret tt) [Logged lvl msg].
Proof. reflexivity. Qed.

Lemma runs_events_of {A} (m : M A) st r evs :
  runs m st r evs -> fst (m st) = r /\ events_of m st = evs.
Proof.
  intros H. split; [by rewrite H|]. by apply events_of_emits with r.
Qed.

Lemma tame_run_command env c check st :
  tame env ->
  exists o rc err evs,
    runs (run_command env (CmdStr c) true check) st
         (Ret (rc, output_of o, err)) evs
    /\ actions evs = [Popen (CmdStr c) true o].
Proof.
  intros Henv. pose proof (run_command_spec env (CmdStr c) true check st) as H.
  cbv zeta in H.
  set (o := run_command_outcome env (CmdStr c) true check st) in *.
  assert (Hact : actions (run_command_prelude (CmdStr c) true check
                          ++ Popen (popen_argument (CmdStr c) true) true o
                          :: run_command_epilogue (CmdStr c) check o)
                 = [Popen (CmdStr c) true o]).
  { rewrite actions_app, (actions_logs _ (prelude_is_log _ _ _)).
    cbn [app actions List.filter is_log negb popen_argument].
    change (List.filter (fun ev => negb (is_log ev)) ?l) with (actions l).
    by rewrite (actions_logs _ (epilogue_is_log _ _ _)). }
  exists o.
  destruct o as [rc out err|e] eqn:Ho.
  - exists rc, (Py.strip err). eexists. split; [exact H|exact Hact].
  - pose proof (Henv _ _ _ _ Ho) as He. destruct e as [name msg| |]; try done.
    exists 1, msg. eexists. split; [exact H|exact Hact].
Qed.

Lemma runs_path_exists env path st :
  runs (path_exists env path) st
       (Ret (os_path_exists env (history st) path))
       [PathChecked path (os_path_exists env (history st) path)].
Proof. reflexivity. Qed.

Lemma runs_write_file env path data st :
  runs (write_file env path data) st
       (match open_write env (history st) path data with
        | None => Ret tt
        | Some e => Raise e
        end)
       [Wrote path data (open_write env (history st) path data)].
Proof. reflexivity. Qed.

Lemma bind_assoc {A B C} (m : M A) (f : A -> M B) (g : B -> M C) st :
  bind (bind m f) g st = bind m (fun a => bind (f a) g) st.
Proof. unfold bind. by destruct (m st) as [[a|e] st']. Qed.

Lemma bind_ret {A B} (a : A) (k : A -> M B) st : bind (ret a) k st = k a st.
Proof. reflexivity. Qed.

Ltac step_run_command Henv o H Hact :=
  match goal with
  | |- context [bind (run_command ?env (CmdStr ?c) true ?check) _ ?st'] =>
      let rc := fresh "rc" in
      let err := fresh "err" in
      let evs := fresh "evs" in
      destruct (tame_run_command env c check st' Henv)
        as (o & rc & err & evs & H & Hact);
      rewrite (bind_runs _ _ _ _ _ H); cbv beta iota; clear H;
      rewrite ?emits_emits
  end.

Ltac step_log :=
  match goal with
  | |- context [bind (log ?lvl ?msg) _ ?st'] =>
      rewrite (bind_runs _ _ _ _ _ (runs_log lvl msg st')); cbv beta iota;
      rewrite ?emits_emits
  end.

(** X3. In an environment where launching a process raises nothing
    outside the [Exception] hierarchy, the repository set-up does, besides
    logging, exactly this, whatever the commands return: it creates the
    key-ring directory, looks for the key file, downloads the key and
    makes it readable only when the file is missing, asks for the code
    name and the architecture, writes to the sources list the line built
    from what the two queries printed (stripped; empty for a query that
    could not be launched), and updates apt. It raises only when the
    write does, and apt is then not updated. *)
Theorem repository_setup_trace :
  forall env st,
    tame env ->
    exists o_dir present o_key o_chmod o_codename o_arch r o_update,
      actions (events_of (setup_docker_repository env) st)
      = [Popen (CmdStr "install -m 0755 -d /etc/apt/keyrings") true o_dir;
         PathChecked "/etc/apt/keyrings/docker.gpg" present]
        ++ (if present then []
            else [Popen (CmdStr ("curl -fsSL https://download.docker.com/linux/debian/gpg"
                                 +:+ " | "
                                 +:+ "gpg --dearmor -o /etc/apt/keyrings/docker.gpg"))
                        true o_key;
                  Popen (CmdStr "chmod a+r /etc/apt/keyrings/docker.gpg") true
                        o_chmod])
        ++ [Popen (CmdStr (". /etc/os-release && echo " +:+ Py.dq
                           +:+ "$VERSION_CODENAME" +:+ Py.dq)) true o_codename;
            Popen (CmdStr "dpkg --print-architecture") true o_arch;
            Wrote "/etc/apt/sources.list.d/docker.list"
                  (docker_repo (output_of o_arch) (output_of o_codename)
                   +:+ Py.nl) r]
        ++ match r with
           | None => [Popen (CmdStr "apt update") true o_update]
           | Some _ => []
           end
      /\ fst (setup_docker_repository env st)
         = match r with None => Ret tt | Some e => Raise e end.
Proof.
  intros env st Henv.
  cut (exists o_dir present o_key o_chmod o_codename o_arch r o_update evs,
          runs (setup_docker_repository env) st
               (match r with None => Ret tt | Some e => Raise e end) evs
          /\ actions evs
             = [Popen (CmdStr "install -m 0755 -d /etc/apt/keyrings") true o_dir;
                PathChecked "/etc/apt/keyrings/docker.gpg" present]
               ++ (if present then []
                   else [Popen (CmdStr ("curl -fsSL https://download.docker.com/linux/debian/gpg"
                                        +:+ " | "
                                        +:+ "gpg --dearmor -o /etc/apt/keyrings/docker.gpg"))
                               true o_key;
                         Popen (CmdStr "chmod a+r /etc/apt/keyrings/docker.gpg")
                               true o_chmod])
               ++ [Popen (CmdStr (". /etc/os-release && echo " +:+ Py.dq
                                  +:+ "$VERSION_CODENAME" +:+ Py.dq)) true
                         o_codename;
                   Popen (CmdStr "dpkg --print-architecture") true o_arch;
                   Wrote "/etc/apt/sources.list.d/docker.list"
                         (docker_repo (output_of o_arch) (output_of o_codename)
                          +:+ Py.nl) r]
               ++ match r with
                  | None => [Popen (CmdStr "apt update") true o_update]
                  | Some _ => []
                  end).
  { intros (o1 & present & o2 & o3 & o4 & o5 & r & o6 & evs & Hrun & Hact).
    exists o1, present, o2, o3, o4, o5, r, o6.
    apply runs_events_of in Hrun as [Hr Hevs]. by rewrite Hevs, Hr. }
  unfold runs, setup_docker_repository.
  step_log.
  step_run_command Henv o_dir H1 Hact1.
  rewrite (bind_runs _ _ _ _ _ (runs_path_exists _ _ _)). cbv beta iota.
  rewrite ?emits_emits.
  match goal with
  | |- context [PathChecked _ ?b] => generalize b; intros present
  end.
  assert (Hrest : forall st' : State, exists o4 o5 r o6 evs',
            (log INFO fmt["Adding Docker repository to apt sources..."] ;;
             r0 <- run_command env
                     (CmdStr (". /etc/os-release && echo " +:+ Py.dq
                              +:+ "$VERSION_CODENAME" +:+ Py.dq)) true true ;;
             let '(_, codename, _) := r0 in
             r1 <- run_command env (CmdStr "dpkg --print-architecture")
                     true true ;;
             let '(_, arch, _) := r1 in
             write_file env "/etc/apt/sources.list.d/docker.list"
               (("deb [arch=" +:+ arch
                 +:+ " signed-by=/etc/apt/keyrings/docker.gpg] "
                 +:+ "https://download.docker.com/linux/debian "
                 +:+ codename +:+ " stable") +:+ Py.nl) ;;
             run_command env (CmdStr "apt update") true true ;; ret tt) st'
            = (match r with None => Ret tt | Some e => Raise e end,
               emits evs' st')
            /\ actions evs'
               = [Popen (CmdStr (". /etc/os-release && echo " +:+ Py.dq
                                 +:+ "$VERSION_CODENAME" +:+ Py.dq)) true o4;
                  Popen (CmdStr "dpkg --print-architecture") true o5;
                  Wrote "/etc/apt/sources.list.d/docker.list"
                        (docker_repo (output_of o5) (output_of o4) +:+ Py.nl) r]
                 ++ match r with
                    | None => [Popen (CmdStr "apt update") true o6]
                    | Some _ => []
                    end).
  { clear - Henv. intros st'.
    step_log.
    step_run_command Henv o4 H4 Hact4.
    step_run_command Henv o5 H5 Hact5.
    rewrite (bind_runs _ _ _ _ _ (runs_write_file _ _ _ _)).
    match goal with
    | |- context [Wrote _ _ ?x] => generalize x; intros r
    end.
    exists o4, o5, r. destruct r as [e|].
    - exists o4. eexists. rewrite ?emits_emits. split; [reflexivity|].
      rewrite !actions_app, Hact4, Hact5. reflexivity.
    - cbv beta iota. rewrite ?emits_emits.
      step_run_command Henv o6 H6 Hact6.
      exists o6. eexists. split; [reflexivity|].
      rewrite !actions_app, Hact4, Hact5, Hact6. reflexivity. }
  destruct present; cbn [negb when].
  - rewrite bind_ret.
    destruct (Hrest (emits ([Logged INFO fmt["Setting up Docker repository..."]]
                            ++ evs ++ [PathChecked "/etc/apt/keyrings/docker.gpg" true]) st))
      as (o4 & o5 & r & o6 & evs' & Hrun & Hact).
    exists o_dir, true, o_dir, o_dir, o4, o5, r, o6. eexists.
    split.
    + rewrite <- ?app_assoc in *. rewrite Hrun, emits_emits. reflexivity.
    + rewrite !actions_app, Hact1, Hact. reflexivity.
  - rewrite !bind_assoc.
    step_log. rewrite !bind_assoc.
    step_run_command Henv o2 H2 Hact2. rewrite !bind_assoc.
    step_run_command Henv o3 H3 Hact3.
    rewrite bind_ret.
    match goal with
    | |- context [_ (emits ?l st)] =>
        destruct (Hrest (emits l st)) as (o4 & o5 & r & o6 & evs' & Hrun & Hact)
    end.
    exists o_dir, false, o2, o3, o4, o5, r, o6. eexists.
    split.
    + rewrite Hrun, emits_emits. reflexivity.
    + rewrite !actions_app, Hact1, Hact2, Hact3, Hact. reflexivity.
Qed.

Lemma repository_setup_trace_witness :
  tame env_failing
  /\ (exists o_dir present o_key o_chmod o_codename o_arch r o_update,
      actions (events_of (setup_docker_repository env_failing)
                         (initial_state []))
      = [Popen (CmdStr "install -m 0755 -d /etc/apt/keyrings") true o_dir;
         PathChecked "/etc/apt/keyrings/docker.gpg" present]
        ++ (if present then []
            else [Popen (CmdStr ("curl -fsSL https://download.docker.com/linux/debian/gpg"
                                 +:+ " | "
                                 +:+ "gpg --dearmor -o /etc/apt/keyrings/docker.gpg"))
                        true o_key;
                  Popen (CmdStr "chmod a+r /etc/apt/keyrings/docker.gpg") true
                        o_chmod])
        ++ [Popen (CmdStr (". /etc/os-release && echo " +:+ Py.dq
                           +:+ "$VERSION_CODENAME" +:+ Py.dq)) true o_codename;
            Popen (CmdStr "dpkg --print-architecture") true o_arch;
            Wrote "/etc/apt/sources.list.d/docker.list"
                  (docker_repo (output_of o_arch) (output_of o_codename)
                   +:+ Py.nl) r]
        ++ match r with
           | None => [Popen (CmdStr "apt update") true o_update]
           | Some _ => []
           end
      /\ fst (setup_docker_repository env_failing (initial_state []))
         = match r with None => Ret tt | Some e => Raise e end).
Proof.
  assert (H : tame env_failing) by (intros h command shell e; discriminate).
  split; [exact H|].
  exact (repository_setup_trace env_failing (initial_state []) H).
Defined.

(** ** The installation loop *)

Lemma returns_ret {A} (a : A) : returns (ret a).
Proof. intros st. by exists a. Qed.

Lemma returns_log lvl msg : returns (log lvl msg).
Proof. intros st. by exists tt. Qed.

Lemma returns_bind {A B} (m : M A) (k : A -> M B) :
  returns m -> (forall a, returns (k a)) -> returns (bind m k).
Proof.
  intros Hm Hk st. unfold bind. destruct (Hm st) as [a Ha].
  destruct (m st) as [r st']. cbn in Ha. subst r. apply Hk.
Qed.

Lemma returns_when b (m : M unit) : returns m -> returns (when b m).
Proof. intros Hm. destruct b; [exact Hm|apply returns_ret]. Qed.

Lemma returns_for_each {A} (l : list A) (f : A -> M unit) :
  (forall a, returns (f a)) -> returns (for_each l f).
Proof.
  intros Hf. induction l as [|a l IH]; [apply returns_ret|].
  cbn [for_each]. apply returns_bind; [apply Hf|]. intros _. exact IH.
Qed.

Lemma returns_run_command env command shell check :
  tame env -> returns (run_command env command shell check).
Proof.
  intros Henv st. rewrite run_command_spec. cbn [fst].
  destruct (run_command_outcome env command shell check st)
    as [rc out err|e] eqn:Ho.
  - by eexists.
  - pose proof (Henv _ _ _ _ Ho) as He. destruct e; try done. by eexists.
Qed.

Ltac returns_step Henv :=
  first
    [ apply returns_ret
    | apply returns_log
    | apply returns_run_command; exact Henv
    | apply returns_when
    | apply returns_bind; [|intros ?; split_triples] ].

Lemma returns_install_one env pkg : tame env -> returns (install_one env pkg).
Proof.
  intros Henv.
  unfold install_one, install_plex, install_bitwarden_cli,
    install_1password_cli, install_nvm, is_installed, sh.
  repeat match goal with
         | |- context [if ?b then _ else _] => destruct b
         end;
    repeat returns_step Henv;
    repeat match goal with
           | |- context [if negb ?b then _ else _] => destruct b; cbn [negb]
           end;
    repeat returns_step Henv.
Qed.

Lemma returns_install_step env d : tame env -> returns (install_step env d).
Proof.
  intros Henv. unfold install_step.
  apply returns_bind; [apply returns_log|intros _].
  apply returns_for_each. intros pkg. by apply returns_install_one.
Qed.

(** X4. In an environment where launching a process raises nothing
    outside the [Exception] hierarchy, the installation of the selection
    never raises, whatever the commands return; a run that gets as far as
    the installation therefore exits with status 0 and the error flag
    unset. *)
Theorem failed_installations_exit_zero :
  forall env stdin,
    tame env ->
    (forall d st, fst (install_step env d st) = Ret tt)
    /\ (In Install (map fst (phases env stdin)) ->
        fst (main env stdin) = Exited 0
        /\ error_flag (snd (main env stdin)) = false).
Proof.
  intros env stdin Henv.
  assert (Hstep : forall d st, fst (install_step env d st) = Ret tt).
  { intros d st. destruct (returns_install_step env d Henv st) as [[] H].
    exact H. }
  split; [exact Hstep|].
  unfold main. rewrite run_spec.
  destruct (emits_only_install_packages env (started stdin)) as [Hflag _].
  rewrite started_flag in Hflag. revert Hflag.
  rewrite install_packages_steps. unfold phases.
  destruct (probe_step env (set_docker_available false (started stdin)))
    as [[[[rc out] err]|e] st1]; cbn zeta.
  2: { intros _ [H|[]]. discriminate H. }
  destruct (setup_docker_repository env _) as [[[]|e] st2].
  2: { intros _ [H|[H|[]]]; discriminate H. }
  destruct (menu_step env _ st2) as [[d|e] st3].
  2: { intros _ [H|[H|[H|[]]]]; discriminate H. }
  specialize (Hstep d st3).
  destruct (install_step env d st3) as [r st4]. cbn [fst snd] in *. subst r.
  intros Hflag _. pose proof (finalize_script_exit st4) as Hexit.
  rewrite Hflag in Hexit.
  destruct (emits_only_finalize_script st4) as [Hflag' _].
  destruct (finalize_script st4) as [r st5]. cbn [fst snd] in *. subst r.
  cbn [fst snd]. split; [reflexivity|]. rewrite Hflag'. exact Hflag.
Qed.

Lemma failed_installations_exit_zero_witness :
  tame env_failing
  /\ In Install (map fst (phases env_failing [Line "3"]))
  /\ fst (main env_failing [Line "3"]) = Exited 0.
Proof.
  assert (H : tame env_failing) by (intros h command shell e; discriminate).
  split; [exact H|].
  assert (Hin : In Install (map fst (phases env_failing [Line "3"])))
    by (vm_compute; tauto).
  split; [exact Hin|].
  exact (proj1 (proj2 (failed_installations_exit_zero env_failing [Line "3"] H)
                  Hin)).
Defined.

Lemma tame_is_installed env package st :
  tame env ->
  exists o evs,
    runs (is_installed env package) st (Ret (reported_installed o)) evs
    /\ actions evs = [Popen (CmdStr ("dpkg -l " +:+ package)) true o].
Proof.
  intros Henv. pose proof (is_installed_spec env package st) as H.
  cbv zeta in H.
  set (o := run_command_outcome env (CmdStr ("dpkg -l " +:+ package)) true
              false st) in *.
  exists o. eexists. split.
  - unfold runs. rewrite H. f_equal.
    destruct o as [rc out err|e] eqn:Ho; [reflexivity|].
    pose proof (Henv _ _ _ _ Ho) as He. by destruct e.
  - rewrite actions_app, (actions_logs _ (prelude_is_log _ _ _)).
    cbn [app actions List.filter is_log negb].
    change (List.filter (fun ev => negb (is_log ev)) ?l) with (actions l).
    by rewrite (actions_logs _ (epilogue_is_log _ _ _)).
Qed.

(** X5. A package with no installation of its own is installed at most
    once and only when missing: the loop asks [dpkg -l] about it, and
    launches [apt install -y] for it exactly when the answer does not
    report it installed (return code 0 and a line starting with [ii]);
    it launches nothing else, and does not raise. *)
Theorem generic_package_installed_when_missing :
  forall env pkg st,
    tame env ->
    ~ In pkg special_pkgs ->
    exists o o_apt,
      actions (events_of (install_one env pkg) st)
      = Popen (CmdStr ("dpkg -l " +:+ pkg)) true o
        :: (if reported_installed o then []
            else [Popen (CmdStr ("apt install -y " +:+ pkg)) true o_apt])
      /\ In (Logged INFO
               (if reported_installed o
                then fmt[pkg; " is already installed, skipping."]
                else fmt["Installing "; pkg; "..."]))
            (events_of (install_one env pkg) st)
      /\ fst (install_one env pkg st) = Ret tt.
Proof.
  intros env pkg st Henv Hpkg.
  cut (exists o o_apt evs,
          runs (install_one env pkg) st (Ret tt) evs
          /\ actions evs
             = Popen (CmdStr ("dpkg -l " +:+ pkg)) true o
               :: (if reported_installed o then []
                   else [Popen (CmdStr ("apt install -y " +:+ pkg)) true o_apt])
          /\ In (Logged INFO
                   (if reported_installed o
                    then fmt[pkg; " is already installed, skipping."]
                    else fmt["Installing "; pkg; "..."])) evs).
  { intros (o & o_apt & evs & Hrun & Hact & Hin). exists o, o_apt.
    apply runs_events_of in Hrun as [Hr Hevs]. by rewrite Hevs, Hr. }
  unfold install_one.
  assert (Hne : forall s, In s special_pkgs -> String.eqb pkg s = false).
  { intros s Hs. apply String.eqb_neq. by intros ->. }
  rewrite !Hne by (cbn; tauto).
  unfold runs.
  destruct (tame_is_installed env pkg st Henv) as (o & evs & Hrun & Hact).
  rewrite (bind_runs _ _ _ _ _ Hrun). cbv beta iota.
  exists o. destruct (reported_installed o); cbn [negb].
  - exists o. eexists. split; [|split].
    + unfold log. rewrite emit_emits, emits_emits. reflexivity.
    + by rewrite actions_app, Hact.
    + apply in_or_app. right. by left.
  - step_log. unfold sh.
    step_run_command Henv o_apt H2 Hact2. unfold ret.
    exists o_apt. eexists. split; [reflexivity|]. split.
    + by rewrite !actions_app, Hact, Hact2.
    + apply in_or_app. left. apply in_or_app. right. by left.
Qed.

Lemma generic_package_installed_when_missing_witness :
  tame env_failing
  /\ ~ In "nginx" special_pkgs
  /\ fst (install_one env_failing "nginx" (initial_state [])) = Ret tt.
Proof.
  assert (H : tame env_failing) by (intros h command shell e; discriminate).
  assert (Hn : ~ In "nginx" special_pkgs).
  { intros Hin. cbn in Hin. repeat destruct Hin as [Hin|Hin]; try discriminate Hin.
    exact Hin. }
  split; [exact H|]. split; [exact Hn|].
  destruct (generic_package_installed_when_missing env_failing "nginx"
              (initial_state []) H Hn) as (o & o_apt & _ & _ & Hr).
  exact Hr.
Defined.

(** ** The order of installation *)

Lemma selected_keys_map_true l : selected_keys (map (fun k => (k, true)) l) = l.
Proof.
  unfold selected_keys. induction l as [|k l IH]; [done|].
  rewrite map_cons.
  rewrite (filter_cons_True (fun kv : string * bool => kv.2 = true)) by done.
  rewrite map_cons.
  f_equal. exact IH.
Qed.

(** X6. Whatever is typed at the menu, in whatever order and however
    often a number is repeated, the packages the run goes on to install
    are pairwise distinct and come in the order of the menu, with the
    Docker packages in the place of the entry docker; that order is
    alphabetical. *)
Theorem selection_installed_in_menu_order :
  forall env room self_docker_available available stdin d,
    menu_result (display_package_menu env room self_docker_available
                   (candidate_pkgs available) (candidate_docker_pkgs available)
                   stdin) = Ret d ->
    selected_keys d = keys d
    /\ List.NoDup (selected_keys d)
    /\ sublist (selected_keys d)
               (full_expansion (candidate_pkgs available)
                  (candidate_docker_pkgs available))
    /\ Py.sort (full_expansion (candidate_pkgs available)
                  (candidate_docker_pkgs available))
       = full_expansion (candidate_pkgs available)
           (candidate_docker_pkgs available).
Proof.
  intros env room b available stdin d Hd.
  apply menu_result_Ret in Hd as (selected & _ & ->).
  rewrite (process_selections_NoDup _ _ _ (full_expansion_NoDup available)).
  rewrite selected_keys_map_true, keys_map_true.
  pose proof (expansion_sublist (candidate_pkgs available)
                (candidate_docker_pkgs available) selected) as Hsub.
  split; [reflexivity|]. split; [|split; [exact Hsub|]].
  - apply NoDup_ListNoDup. eapply sublist_NoDup; [|exact Hsub].
    apply NoDup_ListNoDup, full_expansion_NoDup.
  - destruct available; vm_compute; reflexivity.
Qed.

Lemma selection_installed_in_menu_order_witness :
  menu_result (display_package_menu env_failing (recursion_room env_failing)
                 true (candidate_pkgs true) (candidate_docker_pkgs true)
                 [Line "10,3,10,1"])
  = Ret [("1password-cli", true); ("certbot", true); ("nginx", true)]
  /\ List.NoDup (selected_keys [("1password-cli", true); ("certbot", true);
                                ("nginx", true)]).
Proof.
  assert (H : menu_result (display_package_menu env_failing
                             (recursion_room env_failing) true
                             (candidate_pkgs true) (candidate_docker_pkgs true)
                             [Line "10,3,10,1"])
              = Ret [("1password-cli", true); ("certbot", true);
                     ("nginx", true)])
    by (vm_compute; reflexivity).
  split; [exact H|].
  exact (proj1 (proj2 (selection_installed_in_menu_order env_failing
                         (recursion_room env_failing) true true
                         [Line "10,3,10,1"] _ H))).
Defined.

(** ** Blank input *)

Lemma int_empty n : Py.int n EmptyString = None.
Proof. reflexivity. Qed.

Lemma blank_bad_token env tokens :
  List.Exists (fun num => Py.strip num = EmptyString) tokens ->
  List.Exists (bad_token env) tokens.
Proof.
  intros H. eapply List.Exists_impl; [|exact H].
  intros num Hnum. unfold bad_token. rewrite Hnum. apply int_empty.
Qed.

(** X7. A line that is blank, or that holds a blank piece between its
    commas (a trailing comma, two commas in a row), is rejected like any
    ill-formed selection: the menu reports an invalid selection and calls
    itself for the rest of the input, with one activation less of room.
    A blank line is not read as the selection none. *)
Theorem blank_piece_shows_menu_again :
  forall env room self_docker_available packages docker_pkgs l rest,
    Py.strip l = EmptyString
    \/ List.Exists (fun num => Py.strip num = EmptyString)
                   (tokens_of (Py.lower (Py.strip l))) ->
    display_package_menu env (S room) self_docker_available packages
      docker_pkgs (Line l :: rest)
    = (menu_lines packages
       ++ [Prompted prompt (Some (Line l));
           Printed "Invalid selection format. Please use numbers separated by commas."]
       ++ menu_events (display_package_menu env room self_docker_available
                         packages docker_pkgs rest),
       menu_result (display_package_menu env room self_docker_available
                      packages docker_pkgs rest),
       menu_rest (display_package_menu env room self_docker_available
                    packages docker_pkgs rest)).
Proof.
  intros env room b packages docker_pkgs l rest H.
  assert (Hblank : List.Exists (fun num => Py.strip num = EmptyString)
                     (tokens_of (Py.lower (Py.strip l)))).
  { destruct H as [H|H]; [|exact H]. rewrite H. by left. }
  clear H. rewrite display_line.
  assert (Hall : Py.lower (Py.strip l) <> "all").
  { intros Heq. rewrite Heq in Hblank. vm_compute in Hblank.
    inversion Hblank as [? ? Hd|? ? Ht]; [discriminate Hd|inversion Ht]. }
  assert (Hnone : Py.lower (Py.strip l) <> "none").
  { intros Heq. rewrite Heq in Hblank. vm_compute in Hblank.
    inversion Hblank as [? ? Hd|? ? Ht]; [discriminate Hd|inversion Ht]. }
  rewrite (selected_indices_of_numbers _ _ _ Hall Hnone).
  apply (blank_bad_token env) in Hblank.
  apply (proj2 (collect_indices_None env packages _ ∅)) in Hblank.
  by rewrite Hblank.
Qed.

Lemma blank_piece_shows_menu_again_witness :
  List.Exists (fun num => Py.strip num = EmptyString)
              (tokens_of (Py.lower (Py.strip "1,2,")))
  /\ menu_result (display_package_menu env_failing
                    (recursion_room env_failing) false (candidate_pkgs false)
                    (candidate_docker_pkgs false) [Line "1,2,"; Line "none"])
     = Ret [].
Proof.
  assert (H : List.Exists (fun num => Py.strip num = EmptyString)
                (tokens_of (Py.lower (Py.strip "1,2,")))).
  { vm_compute. right. right. left. reflexivity. }
  split; [exact H|].
  change (recursion_room env_failing) with (S 995).
  rewrite (blank_piece_shows_menu_again env_failing 995%nat false
             (candidate_pkgs false) (candidate_docker_pkgs false) "1,2,"
             [Line "none"] (or_intror H)).
  reflexivity.
Defined.

(** ** Input that is never accepted *)










